(** * Uchiwa web server: the request handlers of [uchiwa/server.go]

    A shallow embedding of the HTTP handlers of the dashboard backend and
    the properties of its authorization gate, datacenter resolution,
    silence validation and collection endpoints.

    The handlers are written in a small state monad over the response
    writer, the [*Uchiwa] receiver and a log of the method calls issued.
    The [filters.Filters] interface, the methods of [*Uchiwa] that live in
    other files of the package, and the JSON decoding of request bodies are
    parameters of the development. *)

From Stdlib Require Import ZArith String List Bool Ascii Lia.
From stdpp Require Import base option list gmap strings.

Open Scope string_scope.

(** ** Go values *)

(** A value of type [interface{}] as [encoding/json] produces it. *)
#[warnings="-register-all"]
Inductive value : Type :=
  | VNil
  | VBool (b : bool)
  | VNumber (n : Z)
  | VString (s : string)
  | VArray (l : list value)
  | VObject (m : gmap string value).

(** A Go slice: the nil slice and an allocated slice of length zero are
    different values ([encoding/json] writes [null] for the first and
    an empty array for the second). *)
Inductive slice (A : Type) : Type :=
  | nil_slice
  | mk_slice (l : list A).
Arguments nil_slice {A}.
Arguments mk_slice {A} l.

Definition elems {A} (s : slice A) : list A :=
  match s with
  | nil_slice => []
  | mk_slice l => l
  end.

Definition len {A} (s : slice A) : nat := length (elems s).

(** [make([]T, 0)] *)
Definition make0 {A} : slice A := mk_slice [].

(** A Go [error] value, identified with the text of its [Error()] method;
    [None] is the nil error. *)
Definition error : Type := string.

(** [fmt.Sprint(err)] *)
Definition fmt_Sprint (err : option error) : string :=
  match err with
  | Some e => e
  | None => "<nil>"
  end.

(** ** Package [strings] *)

(** [strings.Split(s, sep)] for a separator of one byte. *)
Fixpoint split_on (c : ascii) (s : string) : list string :=
  match s with
  | EmptyString => [EmptyString]
  | String a s' =>
      if Ascii.eqb a c then EmptyString :: split_on c s'
      else match split_on c s' with
           | [] => [String a EmptyString]
           | h :: t => String a h :: t
           end
  end.

Definition strings_Split (s : string) (sep : ascii) : list string :=
  split_on sep s.

(** [strings.Join(a, sep)] *)
Definition strings_Join (a : list string) (sep : string) : string :=
  String.concat sep a.

(** [strings.Contains(s, substr)] *)
Fixpoint strings_Contains (s substr : string) : bool :=
  String.prefix substr s
  || match s with
     | EmptyString => false
     | String _ s' => strings_Contains s' substr
     end.

(** ** Package [structs] and the types of package [uchiwa] *)

Module structs.

(** [structs.Subscription] *)
Record Subscription : Type := mkSubscription {
  SubDc : string;
  Name : string
}.

(** The collections of [structs.Data] the handlers read. *)
Record Data : Type := mkData {
  Aggregates : slice value;
  Checks : slice value;
  Clients : slice value;
  Events : slice value;
  Silenced : slice value;
  Stashes : slice value;
  Subscriptions : slice Subscription
}.

(** [Config.Uchiwa.UsersOptions]: the two policy flags the handlers read. *)
Record UsersOptions : Type := mkUsersOptions {
  DisableNoExpiration : bool;
  RequireSilencingReason : bool
}.

End structs.

(** The [silence] struct a POST on [/silenced] is decoded into. [Rest]
    stands for the fields the handlers never touch. *)
Record silence : Type := mkSilence {
  Dc : string;
  Creator : string;
  Expire : Z;
  ExpireOnResolve : bool;
  Reason : string;
  Rest : list (string * value)
}.

Definition set_Creator (d : silence) (c : string) : silence :=
  {| Dc := Dc d; Creator := c; Expire := Expire d;
     ExpireOnResolve := ExpireOnResolve d; Reason := Reason d;
     Rest := Rest d |}.

(** The [stash] struct a POST on [/stashes] is decoded into. [Content] is
    a Go map and may be nil ([None]). *)
Record stash : Type := mkStash {
  StashDc : string;
  StashPath : string;
  Content : option (gmap string value);
  StashExpire : Z
}.

(** [*jwt.Token]: only the claims are read; a nil token is [None]. *)
Record Token : Type := mkToken {
  Claims : gmap string value
}.

(** [token.Claims[k]]: a missing key reads as the nil interface. *)
Definition claim (t : Token) (k : string) : value :=
  default VNil (Claims t !! k).

Definition is_nil (v : value) : bool :=
  match v with
  | VNil => true
  | _ => false
  end.

(** The receiver [u *Uchiwa]: configuration and cached data. *)
Record Uchiwa : Type := mkUchiwa {
  Config : structs.UsersOptions;
  Data : structs.Data
}.

(** ** Package [filters] *)

Module filters.

(** The [filters.Filters] interface. Its methods are pure functions of
    the collection (or name) and the token. *)
Record Filters : Type := mkFilters {
  Aggregates : slice value -> option Token -> slice value;
  Checks : slice value -> option Token -> slice value;
  Client : value -> option Token -> bool;
  Clients : slice value -> option Token -> slice value;
  Events : slice value -> option Token -> slice value;
  GetRequest : string -> option Token -> bool;
  Silenced : slice value -> option Token -> slice value;
  Stashes : slice value -> option Token -> slice value;
  Subscriptions :
    slice structs.Subscription -> option Token -> slice structs.Subscription
}.

End filters.

(** ** Requests and responses *)

(** What a handler reads of [*http.Request]. [Body] is the raw body; it is
    decoded by the [Decoder] below. *)
Record Request : Type := mkRequest {
  Method : string;
  Path : string;
  QueryDc : string;
  AcceptEncoding : string;
  JWT : option Token;
  Body : string
}.

Definition MethodGet : string := "GET".
Definition MethodHead : string := "HEAD".
Definition MethodPost : string := "POST".
Definition MethodDelete : string := "DELETE".

Definition StatusOK : Z := 200%Z.
Definition StatusCreated : Z := 201%Z.
Definition StatusAccepted : Z := 202%Z.
Definition StatusMultipleChoices : Z := 300%Z.
Definition StatusBadRequest : Z := 400%Z.
Definition StatusForbidden : Z := 403%Z.
Definition StatusNotFound : Z := 404%Z.
Definition StatusInternalServerError : Z := 500%Z.

(** [authentication.GetJWTFromContext(r)] *)
Definition GetJWTFromContext (r : Request) : option Token := JWT r.

(** What is handed to a [json.Encoder]. *)
Inductive Encoded : Type :=
  | EValues (s : slice value)
  | ESubscriptions (s : slice structs.Subscription)
  | EValue (v : value).

(** The JSON text is an empty array: an allocated slice of length zero. *)
Definition is_empty_array (e : Encoded) : bool :=
  match e with
  | EValues (mk_slice []) => true
  | ESubscriptions (mk_slice []) => true
  | EValue (VArray []) => true
  | _ => false
  end.

(** The JSON text is [null]. *)
Definition is_null (e : Encoded) : bool :=
  match e with
  | EValues nil_slice => true
  | ESubscriptions nil_slice => true
  | EValue VNil => true
  | _ => false
  end.

(** One write to the response body. *)
Inductive Chunk : Type :=
  | Text (s : string)
  | Json (e : Encoded)
  | Gzip (e : Encoded).

Definition Headers : Type := list (string * string).

(** [http.ResponseWriter]: the header map, the status line once it is
    written (with the headers sent along), and the body written so far. *)
Record ResponseWriter : Type := mkWriter {
  header : Headers;
  wrote : option (Z * Headers);
  written : list Chunk
}.

Definition newWriter : ResponseWriter :=
  {| header := []; wrote := None; written := [] |}.

(** The calls a handler issues on [u]. *)
Inductive Call : Type :=
  | CfindAggregate (name : string)
  | CfindCheck (name : string)
  | CfindClient (name : string)
  | CfindStash (path : string)
  | CDeleteAggregate (name dc : string)
  | CGetAggregate (name dc : string)
  | CGetAggregateChecks (name dc : string)
  | CGetAggregateClients (name dc : string)
  | CGetAggregateResults (name severity dc : string)
  | CGetCheck (dc name : string)
  | CDeleteClient (dc name : string)
  | CGetClientHistory (dc name : string)
  | CGetClient (dc name : string)
  | CUpdateClient (payload : value)
  | CResolveEvent (check client dc : string)
  | CDeleteCheckResult (check client dc : string)
  | CDeleteStash (dc path : string)
  | CClearSilenced (data : silence)
  | CPostSilence (data : silence)
  | CPostStash (data : stash).

(** The state a handler runs in. *)
Record World : Type := mkWorld {
  w : ResponseWriter;
  u : Uchiwa;
  calls : list Call
}.

(** ** The handler monad *)

(** A step either goes on with a value, executes [return], or panics. *)
Inductive Outcome (A : Type) : Type :=
  | Next (a : A)
  | Return
  | Panic.
Arguments Next {A} a.
Arguments Return {A}.
Arguments Panic {A}.

Definition M (A : Type) : Type := World -> Outcome A * World.

Definition ret {A} (a : A) : M A := fun s => (Next a, s).

Definition bind {A B} (m : M A) (k : A -> M B) : M B :=
  fun s =>
    match m s with
    | (Next a, s') => k a s'
    | (Return, s') => (Return, s')
    | (Panic, s') => (Panic, s')
    end.

Notation "x <- c ;; k" := (bind c (fun x => k))
  (at level 100, c at next level, right associativity).
Notation "c ;; k" := (bind c (fun _ => k))
  (at level 100, right associativity).

Definition return_ {A} : M A := fun s => (Return, s).
Definition panic {A} : M A := fun s => (Panic, s).

Definition when (c : bool) (body : M unit) : M unit :=
  if c then body else ret tt.

(** [a || b] where evaluating [b] may panic. *)
Definition orelse (a : bool) (b : M bool) : M bool :=
  if a then ret true else b.

(** [l[i]] *)
Definition elem_at {A} (l : list A) (i : nat) : M A :=
  match l !! i with
  | Some x => ret x
  | None => panic
  end.

Definition modify_w (f : ResponseWriter -> ResponseWriter) : M unit :=
  fun s => (Next tt, {| w := f (w s); u := u s; calls := calls s |}).

(** [w.Header().Add(k, v)] *)
Definition Header_Add (k v : string) : M unit :=
  modify_w (fun rw =>
    {| header := (header rw ++ [(k, v)])%list; wrote := wrote rw;
       written := written rw |}).

(** [w.Header().Set(k, v)] *)
Definition Header_Set (k v : string) : M unit :=
  modify_w (fun rw =>
    {| header :=
         (List.filter (fun kv => negb (String.eqb (fst kv) k)) (header rw)
          ++ [(k, v)])%list;
       wrote := wrote rw; written := written rw |}).

Definition write_header (code : Z) (rw : ResponseWriter) : ResponseWriter :=
  match wrote rw with
  | Some _ => rw
  | None =>
      {| header := header rw; wrote := Some (code, header rw);
         written := written rw |}
  end.

(** [w.WriteHeader(code)]: only the first call counts. *)
Definition WriteHeader (code : Z) : M unit := modify_w (write_header code).

(** [w.Write]: writes the status line with [200] if none was written. *)
Definition Write (c : Chunk) : M unit :=
  modify_w (fun rw =>
    let rw' := write_header StatusOK rw in
    {| header := header rw'; wrote := wrote rw';
       written := (written rw' ++ [c])%list |}).

(** [http.Error(w, msg, code)] *)
Definition http_Error (msg : string) (code : Z) : M unit :=
  Header_Set "Content-Type" "text/plain; charset=utf-8" ;;
  Header_Set "X-Content-Type-Options" "nosniff" ;;
  WriteHeader code ;;
  Write (Text (msg ++ String "010"%char EmptyString)).

(** [json.NewEncoder(w).Encode(v)]: the values of the model always encode,
    so the handlers' branch for an encoding error is never taken. *)
Definition Encode (e : Encoded) : M unit := Write (Json e).

(** [gz := gzip.NewWriter(w); defer gz.Close(); json.NewEncoder(gz).Encode(v)] *)
Definition EncodeGzip (e : Encoded) : M unit := Write (Gzip e).

(** A call of a method of [u]: logged, answered from the cached data. *)
Definition invoke {A} (c : Call) (f : Uchiwa -> A) : M A :=
  fun s => (Next (f (u s)), {| w := w s; u := u s; calls := (calls s ++ [c])%list |}).

(** [u.Config.Uchiwa.UsersOptions] *)
Definition get_Config : M structs.UsersOptions :=
  fun s => (Next (Config (u s)), s).

(** [u.Data] *)
Definition get_Data : M structs.Data :=
  fun s => (Next (Data (u s)), s).

(** ** The collaborators of the handlers *)

(** Modelled from the spec: the methods of [*Uchiwa] that [server.go] calls
    (the name lookups, the reads by key and the dispatcher commands) are
    defined in other files of the package. Following the spec's contract
    of the Resolver and of the Command Dispatcher, which "does not mutate
    the cache" and shares "no mutable state with the cache", a method reads
    the receiver and yields its Go results; it has no access to the
    response writer and does not write [u.Data]. *)
Record Methods : Type := mkMethods {
  findAggregate : Uchiwa -> string -> slice value * option error;
  findCheck : Uchiwa -> string -> slice value * option error;
  findClient : Uchiwa -> string -> slice value * option error;
  findStash : Uchiwa -> string -> slice value * option error;
  DeleteAggregate : Uchiwa -> string -> string -> option error;
  GetAggregate : Uchiwa -> string -> string -> value * option error;
  GetAggregateChecks : Uchiwa -> string -> string -> value * option error;
  GetAggregateClients : Uchiwa -> string -> string -> value * option error;
  GetAggregateResults :
    Uchiwa -> string -> string -> string -> value * option error;
  GetCheck : Uchiwa -> string -> string -> value * option error;
  DeleteClient : Uchiwa -> string -> string -> option error;
  GetClientHistory : Uchiwa -> string -> string -> value * option error;
  GetClient : Uchiwa -> string -> string -> value * option error;
  UpdateClient : Uchiwa -> value -> option error;
  ResolveEvent : Uchiwa -> string -> string -> string -> option error;
  DeleteCheckResult : Uchiwa -> string -> string -> string -> option error;
  DeleteStash : Uchiwa -> string -> string -> option error;
  ClearSilenced : Uchiwa -> silence -> option error;
  PostSilence : Uchiwa -> silence -> option error;
  PostStash : Uchiwa -> stash -> option error
}.

(** [json.NewDecoder(r.Body).Decode(&v)] at the three types the handlers
    decode into; [None] is a decoding error. *)
Record Decoder : Type := mkDecoder {
  decode_value : string -> option value;
  decode_silence : string -> option silence;
  decode_stash : string -> option stash
}.

Definition is_err (e : option error) : bool :=
  match e with
  | Some _ => true
  | None => false
  end.

(** [u.Config.Uchiwa.UsersOptions.DisableNoExpiration &&
     (data.Expire < 1 && !data.ExpireOnResolve)]: the entry is open-ended
    while the policy disallows it. *)
Definition open_ended (cfg : structs.UsersOptions) (d : silence) : bool :=
  structs.DisableNoExpiration cfg
  && ((Expire d <? 1)%Z && negb (ExpireOnResolve d)).

(** [u.Config.Uchiwa.UsersOptions.RequireSilencingReason &&
     data.Reason == ""]: the entry has no reason while the policy requires
    one. *)
Definition no_reason (cfg : structs.UsersOptions) (d : silence) : bool :=
  structs.RequireSilencingReason cfg && (Reason d =? "").

(** ** The handlers *)

Section Handlers.

Context (Filters : filters.Filters) (U : Methods) (J : Decoder).

(** The block every single-object handler runs when the [dc] query
    parameter is empty ([aggregateHandler] lines 45-97, [checkHandler]
    239-291, [clientHandler] 378-430, [eventHandler] 680-731,
    [resultsHandler] 929-980, [stashHandler] 1017-1068): the same text
    up to the find method and the filter. It yields the datacenter, or
    answers and returns. *)
Definition lookupDc (c : Call)
    (find : Uchiwa -> slice value * option error)
    (visible_of : slice value -> option Token -> slice value)
    (r : Request) (token : option Token) : M string :=
  res <- invoke c find ;;
  let objects := fst res in
  let err := snd res in
  when (is_err err)
    (http_Error (fmt_Sprint err) StatusNotFound ;; return_) ;;
  let visible := visible_of objects token in
  when (1 <? len visible)%nat
    (Header_Add "Accept-Charset" "utf-8" ;;
     Header_Add "Content-Type" "application/json" ;;
     when (negb (strings_Contains (AcceptEncoding r) "gzip"))
       (WriteHeader StatusMultipleChoices ;;
        Encode (EValues visible) ;;
        return_) ;;
     Header_Add "Content-Encoding" "gzip" ;;
     WriteHeader StatusMultipleChoices ;;
     EncodeGzip (EValues visible) ;;
     return_) ;;
  first <- elem_at (elems objects) 0 ;;
  match first with
  | VObject c =>
      match c !! "dc" with
      | Some (VString dc) => ret dc
      | _ => http_Error (fmt_Sprint err) StatusInternalServerError ;; return_
      end
  | _ => http_Error (fmt_Sprint err) StatusInternalServerError ;; return_
  end.

(** [len(resources) < n || resources[2] == ""] *)
Definition no_name (resources : list string) (n : nat) : M bool :=
  orelse (length resources <? n)%nat
    (x <- elem_at resources 2 ;; ret (x =? "")).

(** The end of a collection handler: headers, then the JSON text, gzipped
    when the client accepts it. *)
Definition send_collection (r : Request) (e : Encoded) : M unit :=
  Header_Add "Accept-Charset" "utf-8" ;;
  Header_Add "Content-Type" "application/json" ;;
  when (negb (strings_Contains (AcceptEncoding r) "gzip"))
    (Encode e ;; return_) ;;
  Header_Set "Content-Encoding" "gzip" ;;
  EncodeGzip e ;;
  return_.

(** [if len(x) == 0 { x = make([]T, 0) }] *)
Definition or_empty {A} (s : slice A) : slice A :=
  if (len s =? 0)%nat then make0 else s.

(** aggregateHandler serves the /aggregates/:name[...] endpoint *)
Definition aggregateHandler (r : Request) : M unit :=
  when (negb (Method r =? MethodGet) && negb (Method r =? MethodHead)
        && negb (Method r =? MethodDelete))
    (http_Error "" StatusBadRequest ;; return_) ;;
  let resources := strings_Split (Path r) "/" in
  bad <- no_name resources 3 ;;
  when bad (http_Error "" StatusBadRequest ;; return_) ;;
  name <- elem_at resources 2 ;;
  let token := GetJWTFromContext r in
  dc <- (if QueryDc r =? ""
         then lookupDc (CfindAggregate name)
                (fun u => findAggregate U u name)
                (filters.Aggregates Filters) r token
         else ret (QueryDc r)) ;;
  when (filters.GetRequest Filters dc token)
    (http_Error "" StatusNotFound ;; return_) ;;
  when (length resources =? 3)%nat
    (when (Method r =? MethodDelete)
       (err <- invoke (CDeleteAggregate name dc)
                 (fun u => DeleteAggregate U u name dc) ;;
        when (is_err err)
          (http_Error (fmt_Sprint err) StatusInternalServerError ;;
           return_) ;;
        return_) ;;
     res <- invoke (CGetAggregate name dc)
              (fun u => GetAggregate U u name dc) ;;
     when (is_err (snd res))
       (http_Error (fmt_Sprint (snd res)) StatusInternalServerError ;;
        return_) ;;
     Encode (EValue (fst res)) ;;
     return_) ;;
  data <-
    (if (length resources =? 4)%nat then
       kind <- elem_at resources 3 ;;
       if kind =? "checks" then
         res <- invoke (CGetAggregateChecks name dc)
                  (fun u => GetAggregateChecks U u name dc) ;;
         when (is_err (snd res))
           (http_Error (fmt_Sprint (snd res)) StatusInternalServerError ;;
            return_) ;;
         ret (fst res)
       else if kind =? "clients" then
         res <- invoke (CGetAggregateClients name dc)
                  (fun u => GetAggregateClients U u name dc) ;;
         when (is_err (snd res))
           (http_Error (fmt_Sprint (snd res)) StatusInternalServerError ;;
            return_) ;;
         ret (fst res)
       else
         http_Error (fmt_Sprint None) StatusNotFound ;; return_
     else if (length resources =? 5)%nat then
       severity <- elem_at resources 4 ;;
       res <- invoke (CGetAggregateResults name severity dc)
                (fun u => GetAggregateResults U u name severity dc) ;;
       when (is_err (snd res))
         (http_Error (fmt_Sprint (snd res)) StatusInternalServerError ;;
          return_) ;;
       ret (fst res)
     else
       http_Error "" StatusBadRequest ;; return_) ;;
  Encode (EValue data) ;;
  return_.

(** aggregatesHandler serves the /aggregates endpoint *)
Definition aggregatesHandler (r : Request) : M unit :=
  when (negb (Method r =? MethodGet) && negb (Method r =? MethodHead))
    (http_Error "" StatusBadRequest ;; return_) ;;
  let token := GetJWTFromContext r in
  data <- get_Data ;;
  let aggregates := filters.Aggregates Filters (structs.Aggregates data) token in
  send_collection r (EValues (or_empty aggregates)).

(** checkHandler serves the /checks/ endpoint *)
Definition checkHandler (r : Request) : M unit :=
  when (negb (Method r =? MethodGet) && negb (Method r =? MethodHead))
    (http_Error "" StatusBadRequest ;; return_) ;;
  let token := GetJWTFromContext r in
  let resources := strings_Split (Path r) "/" in
  bad <- no_name resources 3 ;;
  when bad (http_Error "" StatusBadRequest ;; return_) ;;
  name <- elem_at resources 2 ;;
  dc <- (if QueryDc r =? ""
         then lookupDc (CfindCheck name) (fun u => findCheck U u name)
                (filters.Checks Filters) r token
         else ret (QueryDc r)) ;;
  when (filters.GetRequest Filters dc token)
    (http_Error "" StatusNotFound ;; return_) ;;
  res <- invoke (CGetCheck dc name) (fun u => GetCheck U u dc name) ;;
  when (is_err (snd res))
    (http_Error (fmt_Sprint (snd res)) StatusNotFound ;; return_) ;;
  Encode (EValue (fst res)) ;;
  return_.

(** checksHandler serves the /checks endpoint *)
Definition checksHandler (r : Request) : M unit :=
  when (negb (Method r =? MethodGet) && negb (Method r =? MethodHead))
    (http_Error "" StatusBadRequest ;; return_) ;;
  let token := GetJWTFromContext r in
  data <- get_Data ;;
  let checks := filters.Checks Filters (structs.Checks data) token in
  send_collection r (EValues (or_empty checks)).

(** clientHandler serves the /clients/:client(/history) endpoint *)
Definition clientHandler (r : Request) : M unit :=
  when (negb (Method r =? MethodDelete) && negb (Method r =? MethodGet)
        && negb (Method r =? MethodHead))
    (http_Error "" StatusBadRequest ;; return_) ;;
  let token := GetJWTFromContext r in
  let resources := strings_Split (Path r) "/" in
  bad <- no_name resources 3 ;;
  when bad (http_Error "" StatusBadRequest ;; return_) ;;
  name <- elem_at resources 2 ;;
  dc <- (if QueryDc r =? ""
         then lookupDc (CfindClient name) (fun u => findClient U u name)
                (filters.Clients Filters) r token
         else ret (QueryDc r)) ;;
  when (filters.GetRequest Filters dc token)
    (http_Error "" StatusNotFound ;; return_) ;;
  when (Method r =? MethodDelete)
    (err <- invoke (CDeleteClient dc name)
              (fun u => DeleteClient U u dc name) ;;
     when (is_err err)
       (http_Error (fmt_Sprint err) StatusInternalServerError ;; return_) ;;
     WriteHeader StatusAccepted ;;
     return_) ;;
  when (length resources =? 4)%nat
    (res <- invoke (CGetClientHistory dc name)
              (fun u => GetClientHistory U u dc name) ;;
     when (is_err (snd res))
       (http_Error (fmt_Sprint (snd res)) StatusNotFound ;; return_) ;;
     Encode (EValue (fst res)) ;;
     return_) ;;
  res <- invoke (CGetClient dc name) (fun u => GetClient U u dc name) ;;
  when (is_err (snd res))
    (http_Error (fmt_Sprint (snd res)) StatusNotFound ;; return_) ;;
  Encode (EValue (fst res)) ;;
  return_.

(** clientsHandler serves the /clients endpoint *)
Definition clientsHandler (r : Request) : M unit :=
  if (Method r =? MethodGet) || (Method r =? MethodHead) then
    let token := GetJWTFromContext r in
    data <- get_Data ;;
    let clients := filters.Clients Filters (structs.Clients data) token in
    send_collection r (EValues (or_empty clients))
  else if Method r =? MethodPost then
    match decode_value J (Body r) with
    | None =>
        http_Error "Could not decode body" StatusInternalServerError ;;
        return_
    | Some payload =>
        let token := GetJWTFromContext r in
        let authorized := filters.Client Filters payload token in
        when (negb authorized) (http_Error "" StatusNotFound ;; return_) ;;
        err <- invoke (CUpdateClient payload)
                 (fun u => UpdateClient U u payload) ;;
        when (is_err err)
          (http_Error (fmt_Sprint err) StatusBadRequest ;; return_) ;;
        WriteHeader StatusCreated ;;
        return_
    end
  else
    http_Error "" StatusBadRequest ;;
    return_.

(** eventHandler serves the /events/:client/:check endpoint *)
Definition eventHandler (r : Request) : M unit :=
  when (negb (Method r =? MethodDelete))
    (http_Error "" StatusBadRequest ;; return_) ;;
  let resources := strings_Split (Path r) "/" in
  when (negb (length resources =? 4)%nat)
    (http_Error "" StatusBadRequest ;; return_) ;;
  check <- elem_at resources 3 ;;
  client <- elem_at resources 2 ;;
  let token := GetJWTFromContext r in
  dc <- (if QueryDc r =? ""
         then lookupDc (CfindClient client)
                (fun u => findClient U u client)
                (filters.Clients Filters) r token
         else ret (QueryDc r)) ;;
  when (filters.GetRequest Filters dc token)
    (http_Error "" StatusNotFound ;; return_) ;;
  err <- invoke (CResolveEvent check client dc)
           (fun u => ResolveEvent U u check client dc) ;;
  when (is_err err)
    (http_Error (fmt_Sprint err) StatusInternalServerError ;; return_) ;;
  WriteHeader StatusAccepted ;;
  return_.

(** eventsHandler serves the /events endpoint *)
Definition eventsHandler (r : Request) : M unit :=
  when (negb (Method r =? MethodGet) && negb (Method r =? MethodHead))
    (http_Error "" StatusBadRequest ;; return_) ;;
  let token := GetJWTFromContext r in
  data <- get_Data ;;
  let events := filters.Events Filters (structs.Events data) token in
  send_collection r (EValues (or_empty events)).

(** resultsHandler serves the /results/:client/:check endpoint *)
Definition resultsHandler (r : Request) : M unit :=
  when (negb (Method r =? MethodDelete))
    (http_Error "" StatusBadRequest ;; return_) ;;
  let resources := strings_Split (Path r) "/" in
  when (negb (length resources =? 4)%nat)
    (http_Error "" StatusBadRequest ;; return_) ;;
  check <- elem_at resources 3 ;;
  client <- elem_at resources 2 ;;
  let token := GetJWTFromContext r in
  dc <- (if QueryDc r =? ""
         then lookupDc (CfindClient client)
                (fun u => findClient U u client)
                (filters.Clients Filters) r token
         else ret (QueryDc r)) ;;
  when (filters.GetRequest Filters dc token)
    (http_Error "" StatusNotFound ;; return_) ;;
  err <- invoke (CDeleteCheckResult check client dc)
           (fun u => DeleteCheckResult U u check client dc) ;;
  when (is_err err)
    (http_Error (fmt_Sprint err) StatusInternalServerError ;; return_) ;;
  WriteHeader StatusAccepted ;;
  return_.

(** stashHandler serves the /stashes/:path endpoint *)
Definition stashHandler (r : Request) : M unit :=
  when (negb (Method r =? MethodDelete))
    (http_Error "" StatusBadRequest ;; return_) ;;
  let resources := strings_Split (Path r) "/" in
  bad <- no_name resources 2 ;;
  when bad (http_Error "" StatusBadRequest ;; return_) ;;
  let path := strings_Join (drop 2 resources) "/" in
  let token := GetJWTFromContext r in
  dc <- (if QueryDc r =? ""
         then lookupDc (CfindStash path) (fun u => findStash U u path)
                (filters.Stashes Filters) r token
         else ret (QueryDc r)) ;;
  when (filters.GetRequest Filters dc token)
    (http_Error "" StatusNotFound ;; return_) ;;
  err <- invoke (CDeleteStash dc path) (fun u => DeleteStash U u dc path) ;;
  when (is_err err)
    (http_Error "Could not create the stash" StatusNotFound ;; return_) ;;
  WriteHeader StatusAccepted ;;
  return_.

(** [if token != nil && token.Claims["username"] != nil
       { data.Creator = token.Claims["username"].(string) }]:
    the type assertion panics on a claim that is not a string. *)
Definition stamp_Creator (token : option Token) (data : silence)
    : M silence :=
  match token with
  | Some t =>
      if negb (is_nil (claim t "username")) then
        match claim t "username" with
        | VString name => ret (set_Creator data name)
        | _ => panic
        end
      else ret data
  | None => ret data
  end.

(** silencedHandler serves the /silenced endpoint *)
Definition silencedHandler (r : Request) : M unit :=
  let token := GetJWTFromContext r in
  if (Method r =? MethodGet) || (Method r =? MethodHead) then
    data <- get_Data ;;
    let silenced := filters.Silenced Filters (structs.Silenced data) token in
    send_collection r (EValues (or_empty silenced))
  else if Method r =? MethodPost then
    match decode_silence J (Body r) with
    | None =>
        http_Error "Could not decode body" StatusInternalServerError ;;
        return_
    | Some data =>
        when (filters.GetRequest Filters (Dc data) token)
          (http_Error "" StatusNotFound ;; return_) ;;
        data <- stamp_Creator token data ;;
        let resources := strings_Split (Path r) "/" in
        clear <- (if (2 <? length resources)%nat
                  then x <- elem_at resources 2 ;; ret (x =? "clear")
                  else ret false) ;;
        when clear
          (err <- invoke (CClearSilenced data)
                    (fun u => ClearSilenced U u data) ;;
           when (is_err err)
             (http_Error
                "Could not clear from entry in the silenced registry"
                StatusNotFound ;;
              return_) ;;
           return_) ;;
        cfg <- get_Config ;;
        when (open_ended cfg data)
          (http_Error "Open-ended silence entries are disallowed"
             StatusNotFound ;;
           return_) ;;
        when (no_reason cfg data)
          (http_Error "A reason must be provided for every silence entry"
             StatusNotFound ;;
           return_) ;;
        err <- invoke (CPostSilence data) (fun u => PostSilence U u data) ;;
        when (is_err err)
          (http_Error "Could not create the entry in the silenced registry"
             StatusNotFound ;;
           return_)
    end
  else
    http_Error "" StatusBadRequest ;;
    return_.

(** [data.Content["username"] = token.Claims["username"]]: assigning to
    an entry of a nil map panics. *)
Definition stamp_Content (token : option Token) (data : stash) : M stash :=
  match token with
  | Some t =>
      if negb (is_nil (claim t "username")) then
        match Content data with
        | Some m =>
            ret {| StashDc := StashDc data; StashPath := StashPath data;
                   Content := Some (<["username" := claim t "username"]> m);
                   StashExpire := StashExpire data |}
        | None => panic
        end
      else ret data
  | None => ret data
  end.

(** stashesHandler serves the /stashes endpoint *)
Definition stashesHandler (r : Request) : M unit :=
  let token := GetJWTFromContext r in
  if (Method r =? MethodGet) || (Method r =? MethodHead) then
    data <- get_Data ;;
    let stashes := filters.Stashes Filters (structs.Stashes data) token in
    send_collection r (EValues (or_empty stashes))
  else if Method r =? MethodPost then
    match decode_stash J (Body r) with
    | None =>
        http_Error "Could not decode body" StatusInternalServerError ;;
        return_
    | Some data =>
        when (filters.GetRequest Filters (StashDc data) token)
          (http_Error "" StatusNotFound ;; return_) ;;
        data <- stamp_Content token data ;;
        err <- invoke (CPostStash data) (fun u => PostStash U u data) ;;
        when (is_err err)
          (http_Error "Could not create the stash" StatusNotFound ;;
           return_)
    end
  else
    http_Error "" StatusBadRequest ;;
    return_.

(** subscriptionHandler serves the /subscriptions/:subscription endpoint *)
Definition subscriptionHandler (r : Request) : M unit :=
  when (negb (Method r =? MethodGet) && negb (Method r =? MethodHead))
    (http_Error "" StatusBadRequest ;; return_) ;;
  let resources := strings_Split (Path r) "/" in
  bad <- no_name resources 2 ;;
  when bad (http_Error "" StatusBadRequest ;; return_) ;;
  let name := strings_Join (drop 2 resources) "/" in
  let subscriptions :=
    mk_slice [ {| structs.SubDc := ""; structs.Name := name |} ] in
  let token := GetJWTFromContext r in
  let result := filters.Subscriptions Filters subscriptions token in
  when (len result =? 0)%nat
    (http_Error "" StatusNotFound ;; return_) ;;
  WriteHeader StatusOK ;;
  return_.

(** subscriptionsHandler serves the /subscriptions endpoint *)
Definition subscriptionsHandler (r : Request) : M unit :=
  when (negb (Method r =? MethodGet) && negb (Method r =? MethodHead))
    (http_Error "" StatusBadRequest ;; return_) ;;
  let token := GetJWTFromContext r in
  data <- get_Data ;;
  let subscriptions :=
    filters.Subscriptions Filters (structs.Subscriptions data) token in
  Encode (ESubscriptions (or_empty subscriptions)).

End Handlers.

(** ** Serving a request *)

(** The status line, the headers sent with it and the body a handler
    produced. *)
Record Response : Type := mkResponse {
  status : Z;
  sent_headers : Headers;
  body : list Chunk
}.

(** When the handler ends (or panics) before anything was written, the
    server does not change what was written; a handler that returns without
    writing a status line answers [200]. *)
Definition response_of (rw : ResponseWriter) : Response :=
  match wrote rw with
  | Some (code, h) =>
      {| status := code; sent_headers := h; body := written rw |}
  | None =>
      {| status := StatusOK; sent_headers := header rw; body := written rw |}
  end.

(** A request served on a fresh response writer. *)
Definition serve (h : Request -> M unit) (u0 : Uchiwa) (r : Request)
    : Outcome unit * World :=
  h r {| w := newWriter; u := u0; calls := [] |}.

Definition panicked {A} (o : Outcome A) : bool :=
  match o with
  | Panic => true
  | _ => false
  end.

Definition response (res : Outcome unit * World) : Response :=
  response_of (w (snd res)).

Definition issued (res : Outcome unit * World) : list Call :=
  calls (snd res).

Definition cache (res : Outcome unit * World) : structs.Data :=
  Data (u (snd res)).

(** The answer of [http.Error(w, msg, code)] on a fresh writer. *)
Definition error_response (msg : string) (code : Z) : Response :=
  {| status := code;
     sent_headers :=
       [("Content-Type", "text/plain; charset=utf-8");
        ("X-Content-Type-Options", "nosniff")];
     body := [Text (msg ++ String "010"%char EmptyString)] |}.

(** ** The single-object lookups *)

(** The six handlers that resolve a datacenter from a name. *)
Inductive Lookup : Type :=
  | LAggregate
  | LCheck
  | LClient
  | LEvent
  | LResult
  | LStash.

Definition lookup_handler (k : Lookup) (F : filters.Filters) (U : Methods)
    : Request -> M unit :=
  match k with
  | LAggregate => aggregateHandler F U
  | LCheck => checkHandler F U
  | LClient => clientHandler F U
  | LEvent => eventHandler F U
  | LResult => resultsHandler F U
  | LStash => stashHandler F U
  end.

Definition find_call (k : Lookup) (name : string) : Call :=
  match k with
  | LAggregate => CfindAggregate name
  | LCheck => CfindCheck name
  | LClient | LEvent | LResult => CfindClient name
  | LStash => CfindStash name
  end.

Definition find_of (k : Lookup) (U : Methods)
    : Uchiwa -> string -> slice value * option error :=
  match k with
  | LAggregate => findAggregate U
  | LCheck => findCheck U
  | LClient | LEvent | LResult => findClient U
  | LStash => findStash U
  end.

Definition visible_of (k : Lookup) (F : filters.Filters)
    : slice value -> option Token -> slice value :=
  match k with
  | LAggregate => filters.Aggregates F
  | LCheck => filters.Checks F
  | LClient | LEvent | LResult => filters.Clients F
  | LStash => filters.Stashes F
  end.

Definition method_in (m : string) (ms : list string) : bool :=
  existsb (String.eqb m) ms.

(** The name a handler looks up, for a request that passes its checks of
    the method and of the path. *)
Definition target (k : Lookup) (r : Request) : option string :=
  let resources := strings_Split (Path r) "/" in
  let third :=
    match resources !! 2%nat with
    | Some x => if x =? "" then None else Some x
    | None => None
    end in
  match k with
  | LAggregate =>
      if method_in (Method r) [MethodGet; MethodHead; MethodDelete]
      then third else None
  | LCheck =>
      if method_in (Method r) [MethodGet; MethodHead] then third else None
  | LClient =>
      if method_in (Method r) [MethodDelete; MethodGet; MethodHead]
      then third else None
  | LEvent | LResult =>
      if method_in (Method r) [MethodDelete] && (length resources =? 4)%nat
      then resources !! 2%nat else None
  | LStash =>
      if method_in (Method r) [MethodDelete]
      then match third with
           | Some _ => Some (strings_Join (drop 2 resources) "/")
           | None => None
           end
      else None
  end.

(** The datacenter of a request is known: given in the query, or found by
    the name lookup (the lookup succeeded, at most one match is visible,
    and the first match carries its datacenter). *)
Inductive known_dc (k : Lookup) (F : filters.Filters) (U : Methods)
    (u0 : Uchiwa) (r : Request) (name : string) : string -> Prop :=
  | known_direct :
      QueryDc r <> "" ->
      known_dc k F U u0 r name (QueryDc r)
  | known_resolved (objects : slice value) (m : gmap string value)
      (rest : list value) (dc : string) :
      QueryDc r = "" ->
      find_of k U u0 name = (objects, None) ->
      (len (visible_of k F objects (JWT r)) <= 1)%nat ->
      elems objects = VObject m :: rest ->
      m !! "dc" = Some (VString dc) ->
      known_dc k F U u0 r name dc.

(** The state a request is served in. *)
Definition init (u0 : Uchiwa) : World :=
  {| w := newWriter; u := u0; calls := [] |}.

(** The datacenter of a lookup: the [dc] query parameter, or the result of
    the name lookup. *)
Definition resolve (k : Lookup) (F : filters.Filters) (U : Methods)
    (r : Request) (name : string) : M string :=
  if QueryDc r =? ""
  then lookupDc (find_call k name) (fun u => find_of k U u name)
         (visible_of k F) r (JWT r)
  else ret (QueryDc r).

(** The authorization gate every lookup handler runs once the datacenter
    is known. *)
Definition gate (F : filters.Filters) (r : Request) (dc : string) : M unit :=
  when (filters.GetRequest F dc (JWT r))
    (http_Error "" StatusNotFound ;; return_).

(** The writer after a single [http.Error] on a fresh writer. *)
Definition error_writer (msg : string) (code : Z) : ResponseWriter :=
  {| header := sent_headers (error_response msg code);
     wrote := Some (code, sent_headers (error_response msg code));
     written := body (error_response msg code) |}.

(** ** The collection endpoints *)

(** The seven handlers that serve a whole collection. *)
Inductive Collection : Type :=
  | KAggregates
  | KChecks
  | KClients
  | KEvents
  | KSilenced
  | KStashes
  | KSubscriptions.

Definition collection_handler (k : Collection) (F : filters.Filters)
    (J : Decoder) (U : Methods) : Request -> M unit :=
  match k with
  | KAggregates => aggregatesHandler F
  | KChecks => checksHandler F
  | KClients => clientsHandler F U J
  | KEvents => eventsHandler F
  | KSilenced => silencedHandler F U J
  | KStashes => stashesHandler F U J
  | KSubscriptions => subscriptionsHandler F
  end.

(** The number of elements the filter leaves visible in the cached
    collection. *)
Definition visible_len (k : Collection) (F : filters.Filters) (d : structs.Data)
    (token : option Token) : nat :=
  match k with
  | KAggregates => len (filters.Aggregates F (structs.Aggregates d) token)
  | KChecks => len (filters.Checks F (structs.Checks d) token)
  | KClients => len (filters.Clients F (structs.Clients d) token)
  | KEvents => len (filters.Events F (structs.Events d) token)
  | KSilenced => len (filters.Silenced F (structs.Silenced d) token)
  | KStashes => len (filters.Stashes F (structs.Stashes d) token)
  | KSubscriptions =>
      len (filters.Subscriptions F (structs.Subscriptions d) token)
  end.

(** The body is one JSON text, gzipped or not, and that text is an empty
    array. *)
Definition empty_array_body (b : list Chunk) : bool :=
  match b with
  | [Json e] => is_empty_array e
  | [Gzip e] => is_empty_array e
  | _ => false
  end.

(** ** Silence validation *)

(** [len(resources) > 2 && resources[2] == "clear"] *)
Definition clear_path (r : Request) : bool :=
  match strings_Split (Path r) "/" !! 2%nat with
  | Some x => x =? "clear"
  | None => false
  end.


Definition is_UpdateClient (c : Call) : bool :=
  match c with
  | CUpdateClient _ => true
  | _ => false
  end.

(** The username claim of the token, when it is a string. *)
Definition username (token : option Token) : option string :=
  match token with
  | Some t =>
      match claim t "username" with
      | VString name => Some name
      | _ => None
      end
  | None => None
  end.

(** The token has no username claim, or one that is a string: the type
    assertion of [silencedHandler] does not panic. *)
Definition username_typed (token : option Token) : bool :=
  match token with
  | Some t =>
      match claim t "username" with
      | VNil | VString _ => true
      | _ => false
      end
  | None => true
  end.

(** The entry after the creator is set from the token. *)
Definition stamped (token : option Token) (data : silence) : silence :=
  match username token with
  | Some name => set_Creator data name
  | None => data
  end.

(** The outcome of a POST on [/silenced] that reaches the dispatch of the
    decoded entry [data]: the clearing of the entry, a rejection by the
    policy, or the creation. *)
Definition silenced_post_result (U : Methods) (u0 : Uchiwa) (r : Request)
    (data : silence) : Outcome unit * World :=
  let d := stamped (JWT r) data in
  if clear_path r then
    (Return,
     {| w := if is_err (ClearSilenced U u0 d)
             then error_writer
                    "Could not clear from entry in the silenced registry"
                    StatusNotFound
             else newWriter;
        u := u0; calls := [CClearSilenced d] |})
  else if open_ended (Config u0) data then
    (Return,
     {| w := error_writer "Open-ended silence entries are disallowed"
               StatusNotFound;
        u := u0; calls := [] |})
  else if no_reason (Config u0) data then
    (Return,
     {| w := error_writer "A reason must be provided for every silence entry"
               StatusNotFound;
        u := u0; calls := [] |})
  else if is_err (PostSilence U u0 d) then
    (Return,
     {| w := error_writer
               "Could not create the entry in the silenced registry"
               StatusNotFound;
        u := u0; calls := [CPostSilence d] |})
  else (Next tt, {| w := newWriter; u := u0; calls := [CPostSilence d] |}).

(** A computation leaves the receiver [u], cache and configuration, as it
    found it, whatever its outcome. *)
Definition keeps_u {A} (m : M A) : Prop :=
  forall s, u (snd (m s)) = u s.

(** ** What the calls of a handler are addressed to *)

(** The datacenter a call names, for the calls that name one. *)
Definition call_dc (c : Call) : option string :=
  match c with
  | CfindAggregate _ | CfindCheck _ | CfindClient _ | CfindStash _ => None
  | CDeleteAggregate _ dc | CGetAggregate _ dc | CGetAggregateChecks _ dc
  | CGetAggregateClients _ dc | CGetAggregateResults _ _ dc => Some dc
  | CGetCheck dc _ | CDeleteClient dc _ | CGetClientHistory dc _
  | CGetClient dc _ => Some dc
  | CUpdateClient _ => None
  | CResolveEvent _ _ dc | CDeleteCheckResult _ _ dc => Some dc
  | CDeleteStash dc _ => Some dc
  | CClearSilenced d | CPostSilence d => Some (Dc d)
  | CPostStash d => Some (StashDc d)
  end.

(** The filters let the call through: [Filters.GetRequest] does not deny
    the datacenter it names, [Filters.Client] accepts the client it
    updates. The name lookups scan every datacenter and name none. *)
Definition permitted (F : filters.Filters) (token : option Token) (c : Call)
    : bool :=
  match c with
  | CUpdateClient payload => filters.Client F payload token
  | _ =>
      match call_dc c with
      | Some dc => negb (filters.GetRequest F dc token)
      | None => true
      end
  end.

(** A computation only adds calls that satisfy [P]. *)
Definition all_calls (P : Call -> bool) {A} (m : M A) : Prop :=
  forall s, forallb P (calls s) = true ->
            forallb P (calls (snd (m s))) = true.

(** ** A concrete deployment *)

Module Demo.

(** The string field [k] of a JSON object. *)
Definition field (k : string) (o : value) : option string :=
  match o with
  | VObject m =>
      match m !! k with
      | Some (VString s) => Some s
      | _ => None
      end
  | _ => None
  end.

Definition has (k v : string) (o : value) : bool :=
  match field k o with
  | Some s => s =? v
  | None => false
  end.

(** Modelled from the spec: the Authorization Filter (package [filters]
    is not among the sources). Deny by default: "an object is visible
    iff its owning datacenter is in that set"; the result is the ordered
    subset of the input. [access] gives the datacenters the identity
    behind a token may access. *)
Definition FilterCollection (access : option Token -> list string)
    (objects : slice value) (token : option Token) : slice value :=
  match objects with
  | nil_slice => nil_slice
  | mk_slice l =>
      mk_slice
        (List.filter
           (fun o => existsb (fun dc => has "dc" dc o) (access token)) l)
  end.

(** Modelled from the spec: [IsAuthorizedForDatacenter(identity, dcName)]
    of the Authorization Filter. *)
Definition IsAuthorizedForDatacenter (access : option Token -> list string)
    (token : option Token) (dc : string) : bool :=
  existsb (String.eqb dc) (access token).

(** Modelled from the spec: the [filters.Filters] value of an
    installation whose identities are limited to sets of datacenters.
    [GetRequest] answers whether the request is unauthorized. *)
Definition Filters (access : option Token -> list string) : filters.Filters :=
  {| filters.Aggregates := FilterCollection access;
     filters.Checks := FilterCollection access;
     filters.Client :=
       fun o token => existsb (fun dc => has "dc" dc o) (access token);
     filters.Clients := FilterCollection access;
     filters.Events := FilterCollection access;
     filters.GetRequest :=
       fun dc token => negb (IsAuthorizedForDatacenter access token dc);
     filters.Silenced := FilterCollection access;
     filters.Stashes := FilterCollection access;
     filters.Subscriptions :=
       fun subs token =>
         match subs with
         | nil_slice => nil_slice
         | mk_slice l =>
             mk_slice
               (List.filter
                  (fun s =>
                     existsb (String.eqb (structs.SubDc s)) (access token))
                  l)
         end |}.

(** A filter that keeps everything and denies nothing: an identity with
    unrestricted access. *)
Definition Unrestricted : filters.Filters :=
  {| filters.Aggregates := fun s _ => s;
     filters.Checks := fun s _ => s;
     filters.Client := fun _ _ => true;
     filters.Clients := fun s _ => s;
     filters.Events := fun s _ => s;
     filters.GetRequest := fun _ _ => false;
     filters.Silenced := fun s _ => s;
     filters.Stashes := fun s _ => s;
     filters.Subscriptions := fun s _ => s |}.

(** Modelled from the spec: the Resolver's [FindByName(kind, name)]
    "scans the current snapshot's objects of that kind across all
    datacenters and returns the set of matches"; zero matches is an
    error. [key] is the field holding the name of that kind. *)
Definition FindByName (key : string) (objects : slice value) (name : string)
    : slice value * option error :=
  match List.filter (has key name) (elems objects) with
  | [] => (nil_slice, Some ("Could not find " ++ name))
  | l => (mk_slice l, None)
  end.

(** Modelled from the spec: [GetByKey(kind, dc, key) -> object | NotFound]. *)
Definition GetByKey (key : string) (objects : slice value) (dc name : string)
    : value * option error :=
  match List.find (fun o => has "dc" dc o && has key name o) (elems objects)
  with
  | Some o => (o, None)
  | None => (VNil, Some ("Could not find " ++ name))
  end.

(** Modelled from the spec: a dispatched command succeeds on a datacenter
    of the registry and fails on any other. *)
Definition Dispatch (registry : list string) (dc : string) : option error :=
  if existsb (String.eqb dc) registry then None
  else Some ("Could not find the datacenter " ++ dc).

(** Modelled from the spec: the methods of [*Uchiwa] outside
    [server.go], over a registry of datacenters. *)
Definition Backend (registry : list string) : Methods :=
  {| findAggregate := fun u => FindByName "name" (structs.Aggregates (Data u));
     findCheck := fun u => FindByName "name" (structs.Checks (Data u));
     findClient := fun u => FindByName "name" (structs.Clients (Data u));
     findStash := fun u => FindByName "path" (structs.Stashes (Data u));
     DeleteAggregate := fun _ _ dc => Dispatch registry dc;
     GetAggregate :=
       fun u name dc => GetByKey "name" (structs.Aggregates (Data u)) dc name;
     GetAggregateChecks :=
       fun u name dc => GetByKey "name" (structs.Aggregates (Data u)) dc name;
     GetAggregateClients :=
       fun u name dc => GetByKey "name" (structs.Aggregates (Data u)) dc name;
     GetAggregateResults :=
       fun u name _ dc =>
         GetByKey "name" (structs.Aggregates (Data u)) dc name;
     GetCheck :=
       fun u dc name => GetByKey "name" (structs.Checks (Data u)) dc name;
     DeleteClient := fun _ dc _ => Dispatch registry dc;
     GetClientHistory :=
       fun u dc name => GetByKey "name" (structs.Clients (Data u)) dc name;
     GetClient :=
       fun u dc name => GetByKey "name" (structs.Clients (Data u)) dc name;
     UpdateClient := fun _ _ => None;
     ResolveEvent := fun _ _ _ dc => Dispatch registry dc;
     DeleteCheckResult := fun _ _ _ dc => Dispatch registry dc;
     DeleteStash := fun _ dc _ => Dispatch registry dc;
     ClearSilenced := fun _ d => Dispatch registry (Dc d);
     PostSilence := fun _ d => Dispatch registry (Dc d);
     PostStash := fun _ d => Dispatch registry (StashDc d) |}.

(** The decoder of a request whose body holds the given values. *)
Definition Decoded (v : option value) (s : option silence)
    (st : option stash) : Decoder :=
  {| decode_value := fun _ => v;
     decode_silence := fun _ => s;
     decode_stash := fun _ => st |}.

Definition object (name dc : string) : value :=
  VObject (<["name" := VString name]> (<["dc" := VString dc]> ∅)).

Definition no_data : structs.Data :=
  {| structs.Aggregates := nil_slice; structs.Checks := nil_slice;
     structs.Clients := nil_slice; structs.Events := nil_slice;
     structs.Silenced := nil_slice; structs.Stashes := nil_slice;
     structs.Subscriptions := nil_slice |}.

Definition lenient : structs.UsersOptions :=
  {| structs.DisableNoExpiration := false;
     structs.RequireSilencingReason := false |}.

Definition strict : structs.UsersOptions :=
  {| structs.DisableNoExpiration := true;
     structs.RequireSilencingReason := true |}.

(** The name [foo] is a client and a check of both datacenters, [west]
    first. *)
Definition both : Uchiwa :=
  {| Config := lenient;
     Data :=
       {| structs.Aggregates := mk_slice [object "foo" "west"; object "foo" "east"];
          structs.Checks := mk_slice [object "foo" "west"; object "foo" "east"];
          structs.Clients := mk_slice [object "foo" "west"; object "foo" "east"];
          structs.Events := nil_slice;
          structs.Silenced := nil_slice;
          structs.Stashes := nil_slice;
          structs.Subscriptions := nil_slice |} |}.

(** The name [foo] exists in [west] only. *)
Definition west_only : Uchiwa :=
  {| Config := lenient;
     Data :=
       {| structs.Aggregates := mk_slice [object "foo" "west"];
          structs.Checks := mk_slice [object "foo" "west"];
          structs.Clients := mk_slice [object "foo" "west"];
          structs.Events := nil_slice;
          structs.Silenced := nil_slice;
          structs.Stashes := nil_slice;
          structs.Subscriptions := nil_slice |} |}.

(** Nothing is cached. *)
Definition nothing : Uchiwa := {| Config := lenient; Data := no_data |}.

Definition nothing_strict : Uchiwa :=
  {| Config := strict; Data := no_data |}.

(** An identity that may access [east] only. *)
Definition east : option Token -> list string := fun _ => ["east"].

Definition get (path dc : string) : Request :=
  {| Method := MethodGet; Path := path; QueryDc := dc;
     AcceptEncoding := ""; JWT := None; Body := "" |}.

Definition post (path : string) (token : option Token) : Request :=
  {| Method := MethodPost; Path := path; QueryDc := "";
     AcceptEncoding := ""; JWT := token; Body := "{}" |}.

Definition alice : Token :=
  {| Claims := <["username" := VString "alice"]> ∅ |}.

Definition entry (reason creator : string) : silence :=
  {| Dc := "east"; Creator := creator; Expire := 0%Z;
     ExpireOnResolve := false; Reason := reason; Rest := [] |}.

End Demo.

(** ** The other handlers of [server.go] *)

(** [structs.CheckExecution], the body of a POST on [/request]. *)
Record CheckExecution : Type := mkCheckExecution {
  ExecCheck : string;
  ExecDc : string;
  Subscribers : list string
}.

(** An entry of [u.Data.Health.Sensu]: the health of one datacenter. *)
Record SensuHealth : Type := mkSensuHealth {
  Output : string
}.

(** [u.Data.Health]. [Sensu] is a Go map; it is given as the entries in
    the order the [range] loop visits them. *)
Record Health : Type := mkHealth {
  Sensu : list (string * SensuHealth);
  UchiwaHealth : string
}.

(** What [healthHandler] hands to [json.Marshal]. *)
Inductive HealthView : Type :=
  | HSensu (m : list (string * SensuHealth))
  | HUchiwa (s : string)
  | HAll (h : Health).

(** What these handlers read of the receiver and of the packages, beyond
    the records above: the fields [u.Data.Dc], [u.Data.Health] and
    [u.PublicConfig] (as the JSON values they encode to, with the auth
    driver and the users options of the public configuration apart), the
    methods [u.Datacenter] and [u.IssueCheckExecution],
    [Filters.Datacenters], the decoding of a [CheckExecution] and
    [json.Marshal] on the health. *)
Record Others : Type := mkOthers {
  DataDc : Uchiwa -> slice value;
  DataHealth : Uchiwa -> Health;
  PublicConfig : Uchiwa -> value;
  AuthDriver : Uchiwa -> string;
  PublicUsersOptions : Uchiwa -> value;
  Datacenter : Uchiwa -> string -> value * option error;
  IssueCheckExecution : Uchiwa -> CheckExecution -> option error;
  Datacenters : slice value -> option Token -> slice value;
  decode_execution : string -> option CheckExecution;
  json_Marshal : HealthView -> string
}.

Definition StatusServiceUnavailable : Z := 503%Z.

(** A read of the receiver. *)
Definition read {A} (f : Uchiwa -> A) : M A :=
  fun s => (Next (f (u s)), s).

(** [s[1:]]: slicing past the end of an empty string panics. *)
Definition from_1 (s : string) : M string :=
  match s with
  | EmptyString => panic
  | String _ rest => ret rest
  end.

(** [for _, sensu := range m { if sensu.Output != "ok" { returnCode = 503 } }] *)
Fixpoint range_Sensu (m : list (string * SensuHealth)) (returnCode : Z) : Z :=
  match m with
  | [] => returnCode
  | (_, sensu) :: rest =>
      range_Sensu rest
        (if negb (Output sensu =? "ok") then StatusServiceUnavailable
         else returnCode)
  end.

(** [fmt.Sprintf] of the format of [configHandler], a JSON object with the
    one key [driver]. *)
Definition driver_json (driver : string) : string :=
  let q := String "034"%char EmptyString in
  "{" ++ q ++ "driver" ++ q ++ ": " ++ q ++ driver ++ q ++ "}".

Section OtherHandlers.

Context (Filters : filters.Filters) (X : Others).

(** configHandler serves the /config endpoint *)
Definition configHandler (r : Request) : M unit :=
  when (negb (Method r =? MethodGet) && negb (Method r =? MethodHead))
    (http_Error "" StatusBadRequest ;; return_) ;;
  let resources := strings_Split (Path r) "/" in
  if (length resources =? 2)%nat then
    cfg <- read (PublicConfig X) ;;
    Encode (EValue cfg)
  else
    third <- elem_at resources 2 ;;
    if third =? "auth" then
      driver <- read (AuthDriver X) ;;
      Write (Text (driver_json driver))
    else if third =? "users" then
      users <- read (PublicUsersOptions X) ;;
      Encode (EValue users)
    else
      http_Error "" StatusNotFound ;;
      return_.

(** datacentersHandler serves the /datacenters/:name endpoint *)
Definition datacenterHandler (r : Request) : M unit :=
  when (negb (Method r =? MethodGet) && negb (Method r =? MethodHead))
    (http_Error "" StatusBadRequest ;; return_) ;;
  let resources := strings_Split (Path r) "/" in
  bad <- no_name resources 3 ;;
  when bad (http_Error "" StatusBadRequest ;; return_) ;;
  name <- elem_at resources 2 ;;
  let token := GetJWTFromContext r in
  when (filters.GetRequest Filters name token)
    (http_Error "" StatusNotFound ;; return_) ;;
  Header_Add "Accept-Charset" "utf-8" ;;
  Header_Add "Content-Type" "application/json" ;;
  res <- read (fun u => Datacenter X u name) ;;
  when (is_err (snd res))
    (http_Error "" StatusNotFound ;; return_) ;;
  Encode (EValue (fst res)) ;;
  return_.

(** datacentersHandler serves the /datacenters endpoint *)
Definition datacentersHandler (r : Request) : M unit :=
  when (negb (Method r =? MethodGet) && negb (Method r =? MethodHead))
    (http_Error "" StatusBadRequest ;; return_) ;;
  let token := GetJWTFromContext r in
  dc <- read (DataDc X) ;;
  let datacenters := Datacenters X dc token in
  send_collection r (EValues datacenters).

(** healthHandler serves the /health endpoint *)
Definition healthHandler (r : Request) : M unit :=
  health <- read (DataHealth X) ;;
  let returnCode := StatusOK in
  path <- from_1 (Path r) ;;
  let '(returnCode, view) :=
    if path =? "health/sensu" then
      (range_Sensu (Sensu health) returnCode, HSensu (Sensu health))
    else if path =? "health/uchiwa" then
      (if negb (UchiwaHealth health =? "ok") then StatusServiceUnavailable
       else returnCode,
       HUchiwa (UchiwaHealth health))
    else
      let returnCode := range_Sensu (Sensu health) returnCode in
      (if negb (UchiwaHealth health =? "ok") then StatusServiceUnavailable
       else returnCode,
       HAll health) in
  WriteHeader returnCode ;;
  Write (Text (json_Marshal X view)) ;;
  return_.

(** requestHandler serves the /request endpoint *)
Definition requestHandler (r : Request) : M unit :=
  when (negb (Method r =? MethodPost))
    (http_Error "" StatusBadRequest ;; return_) ;;
  match decode_execution X (Body r) with
  | None =>
      http_Error "Could not decode body" StatusInternalServerError ;;
      return_
  | Some data =>
      let token := GetJWTFromContext r in
      when (filters.GetRequest Filters (ExecDc data) token)
        (http_Error "" StatusNotFound ;; return_) ;;
      err <- read (fun u => IssueCheckExecution X u data) ;;
      when (is_err err)
        (http_Error "" StatusNotFound ;; return_) ;;
      return_
  end.


End OtherHandlers.

(** Some datacenter of the entries is not ok. *)
Definition unhealthy (m : list (string * SensuHealth)) : bool :=
  existsb (fun kv => negb (Output (snd kv) =? "ok")) m.

(** A deployment for the other handlers: the datacenter [east] is known and
    healthy, [west] is known and failing; check executions succeed on
    [east] only. *)
Definition Demo_Others : Others :=
  {| DataDc := fun _ => nil_slice;
     DataHealth :=
       fun _ => {| Sensu := [("east", {| Output := "ok" |});
                             ("west", {| Output := "connection refused" |})];
                   UchiwaHealth := "ok" |};
     PublicConfig := fun _ => VObject ∅;
     AuthDriver := fun _ => "simple";
     PublicUsersOptions := fun _ => VObject ∅;
     Datacenter :=
       fun _ name => if name =? "east" then (VObject ∅, None)
                     else (VNil, Some "Could not find the datacenter");
     IssueCheckExecution :=
       fun _ e => if ExecDc e =? "east" then None
                  else Some "Could not find the datacenter";
     Datacenters := fun s _ => s;
     decode_execution :=
       fun _ => Some {| ExecCheck := "cpu"; ExecDc := "west";
                        Subscribers := [] |};
     json_Marshal := fun _ => "" |}.

(** ** The answers past the checks *)

(** The first part of a path. *)
Definition first_part (s : string) : string :=
  match strings_Split s "/" with
  | x :: _ => x
  | [] => ""
  end.

(** The body is one JSON text, gzipped or not, and that text is [null]. *)
Definition null_body (b : list Chunk) : bool :=
  match b with
  | [Json e] => is_null e
  | [Gzip e] => is_null e
  | _ => false
  end.

(** The calls of the resolution: the find, when no datacenter is given. *)
Definition resolution_calls (k : Lookup) (r : Request) (name : string)
    : list Call :=
  if QueryDc r =? "" then [find_call k name] else [].

(** The answer of a handler that encodes [v] and writes nothing else. *)
Definition json_response (v : value) : Response :=
  {| status := StatusOK; sent_headers := []; body := [Json (EValue v)] |}.

(** The answer of a handler that writes status [code] and nothing else. *)
Definition bare_response (code : Z) : Response :=
  {| status := code; sent_headers := []; body := [] |}.

(** The state in which the rest of a lookup handler runs once the
    datacenter is known and the gate is passed. *)
Definition past_gate (k : Lookup) (u0 : Uchiwa) (r : Request) (name : string)
    : World :=
  {| w := newWriter; u := u0; calls := resolution_calls k r name |}.

(** [checkHandler] past the gate (lines 300-312). *)
Definition checkTail (U : Methods) (name dc : string) : M unit :=
  res <- invoke (CGetCheck dc name) (fun u => GetCheck U u dc name) ;;
  when (is_err (snd res))
    (http_Error (fmt_Sprint (snd res)) StatusNotFound ;; return_) ;;
  Encode (EValue (fst res)) ;;
  return_.

(** [clientHandler] past the gate (lines 439-481). *)
Definition clientTail (U : Methods) (r : Request) (name dc : string)
    : M unit :=
  let resources := strings_Split (Path r) "/" in
  when (Method r =? MethodDelete)
    (err <- invoke (CDeleteClient dc name)
              (fun u => DeleteClient U u dc name) ;;
     when (is_err err)
       (http_Error (fmt_Sprint err) StatusInternalServerError ;; return_) ;;
     WriteHeader StatusAccepted ;;
     return_) ;;
  when (length resources =? 4)%nat
    (res <- invoke (CGetClientHistory dc name)
              (fun u => GetClientHistory U u dc name) ;;
     when (is_err (snd res))
       (http_Error (fmt_Sprint (snd res)) StatusNotFound ;; return_) ;;
     Encode (EValue (fst res)) ;;
     return_) ;;
  res <- invoke (CGetClient dc name) (fun u => GetClient U u dc name) ;;
  when (is_err (snd res))
    (http_Error (fmt_Sprint (snd res)) StatusNotFound ;; return_) ;;
  Encode (EValue (fst res)) ;;
  return_.

(** [eventHandler] past the gate (lines 739-747). *)
Definition eventTail (U : Methods) (check client dc : string) : M unit :=
  err <- invoke (CResolveEvent check client dc)
           (fun u => ResolveEvent U u check client dc) ;;
  when (is_err err)
    (http_Error (fmt_Sprint err) StatusInternalServerError ;; return_) ;;
  WriteHeader StatusAccepted ;;
  return_.

(** [resultsHandler] past the gate (lines 988-995). *)
Definition resultsTail (U : Methods) (check client dc : string) : M unit :=
  err <- invoke (CDeleteCheckResult check client dc)
           (fun u => DeleteCheckResult U u check client dc) ;;
  when (is_err err)
    (http_Error (fmt_Sprint err) StatusInternalServerError ;; return_) ;;
  WriteHeader StatusAccepted ;;
  return_.

(** [stashHandler] past the gate (lines 1076-1084). *)
Definition stashTail (U : Methods) (path dc : string) : M unit :=
  err <- invoke (CDeleteStash dc path) (fun u => DeleteStash U u dc path) ;;
  when (is_err err)
    (http_Error "Could not create the stash" StatusNotFound ;; return_) ;;
  WriteHeader StatusAccepted ;;
  return_.

(** [aggregateHandler] past the gate (lines 105-172). *)
Definition aggregateTail (U : Methods) (r : Request) (name dc : string)
    : M unit :=
  let resources := strings_Split (Path r) "/" in
  when (length resources =? 3)%nat
    (when (Method r =? MethodDelete)
       (err <- invoke (CDeleteAggregate name dc)
                 (fun u => DeleteAggregate U u name dc) ;;
        when (is_err err)
          (http_Error (fmt_Sprint err) StatusInternalServerError ;;
           return_) ;;
        return_) ;;
     res <- invoke (CGetAggregate name dc)
              (fun u => GetAggregate U u name dc) ;;
     when (is_err (snd res))
       (http_Error (fmt_Sprint (snd res)) StatusInternalServerError ;;
        return_) ;;
     Encode (EValue (fst res)) ;;
     return_) ;;
  data <-
    (if (length resources =? 4)%nat then
       kind <- elem_at resources 3 ;;
       if kind =? "checks" then
         res <- invoke (CGetAggregateChecks name dc)
                  (fun u => GetAggregateChecks U u name dc) ;;
         when (is_err (snd res))
           (http_Error (fmt_Sprint (snd res)) StatusInternalServerError ;;
            return_) ;;
         ret (fst res)
       else if kind =? "clients" then
         res <- invoke (CGetAggregateClients name dc)
                  (fun u => GetAggregateClients U u name dc) ;;
         when (is_err (snd res))
           (http_Error (fmt_Sprint (snd res)) StatusInternalServerError ;;
            return_) ;;
         ret (fst res)
       else
         http_Error (fmt_Sprint None) StatusNotFound ;; return_
     else if (length resources =? 5)%nat then
       severity <- elem_at resources 4 ;;
       res <- invoke (CGetAggregateResults name severity dc)
                (fun u => GetAggregateResults U u name severity dc) ;;
       when (is_err (snd res))
         (http_Error (fmt_Sprint (snd res)) StatusInternalServerError ;;
          return_) ;;
       ret (fst res)
     else
       http_Error "" StatusBadRequest ;; return_) ;;
  Encode (EValue data) ;;
  return_.

(** What a lookup handler runs past the gate, by handler; the check of
    [eventHandler] and [resultsHandler] is the fourth part of the path. *)
Definition tail_of (k : Lookup) (U : Methods) (r : Request) (name : string)
    : string -> M unit :=
  match k with
  | LAggregate => aggregateTail U r name
  | LCheck => checkTail U name
  | LClient => clientTail U r name
  | LEvent =>
      eventTail U (default "" (strings_Split (Path r) "/" !! 3%nat)) name
  | LResult =>
      resultsTail U (default "" (strings_Split (Path r) "/" !! 3%nat)) name
  | LStash => stashTail U name
  end.

(** The datacenter an object of the cache carries, when it is a JSON
    object with a string field [dc]. *)
Definition dc_field (v : value) : option string :=
  match v with
  | VObject c =>
      match c !! "dc" with
      | Some (VString dc) => Some dc
      | _ => None
      end
  | _ => None
  end.

(** What a collection handler hands to the encoder: the result of the
    filter on the cached collection, an empty result replaced by an
    allocated slice. *)
Definition collection_encoded (k : Collection) (F : filters.Filters)
    (d : structs.Data) (token : option Token) : Encoded :=
  match k with
  | KAggregates =>
      EValues (or_empty (filters.Aggregates F (structs.Aggregates d) token))
  | KChecks => EValues (or_empty (filters.Checks F (structs.Checks d) token))
  | KClients =>
      EValues (or_empty (filters.Clients F (structs.Clients d) token))
  | KEvents => EValues (or_empty (filters.Events F (structs.Events d) token))
  | KSilenced =>
      EValues (or_empty (filters.Silenced F (structs.Silenced d) token))
  | KStashes =>
      EValues (or_empty (filters.Stashes F (structs.Stashes d) token))
  | KSubscriptions =>
      ESubscriptions
        (or_empty (filters.Subscriptions F (structs.Subscriptions d) token))
  end.

(** The answer to a read of a collection: [subscriptionsHandler] encodes
    to the writer with no header; the others announce JSON and compress
    when [gzip] is accepted. *)
Definition collection_response (k : Collection) (gzip : bool) (e : Encoded)
    : Response :=
  match k with
  | KSubscriptions =>
      {| status := StatusOK; sent_headers := []; body := [Json e] |}
  | _ =>
      if gzip then
        {| status := StatusOK;
           sent_headers := [("Accept-Charset", "utf-8");
                            ("Content-Type", "application/json");
                            ("Content-Encoding", "gzip")];
           body := [Gzip e] |}
      else
        {| status := StatusOK;
           sent_headers := [("Accept-Charset", "utf-8");
                            ("Content-Type", "application/json")];
           body := [Json e] |}
  end.

(** [data.Content["username"] = v] on an allocated map. *)
Definition set_username (data : stash) (m : gmap string value) (v : value)
    : stash :=
  {| StashDc := StashDc data; StashPath := StashPath data;
     Content := Some (<["username" := v]> m);
     StashExpire := StashExpire data |}.

(** The collection handlers with a POST branch. *)
Definition accepts_post (k : Collection) : bool :=
  match k with
  | KClients | KSilenced | KStashes => true
  | _ => false
  end.

(** The body of a POST decodes into what the handler expects. *)
Definition decodes (k : Collection) (J : Decoder) (b : string) : bool :=
  match k with
  | KClients => bool_decide (is_Some (decode_value J b))
  | KSilenced => bool_decide (is_Some (decode_silence J b))
  | KStashes => bool_decide (is_Some (decode_stash J b))
  | _ => false
  end.

(** A DELETE request. *)
Definition Demo_delete (path dc : string) : Request :=
  {| Method := MethodDelete; Path := path; QueryDc := dc;
     AcceptEncoding := ""; JWT := None; Body := "" |}.

(** A backend whose lookup of a check answers [found] with no error,
    whatever the name. *)
Definition Demo_finds (found : slice value) : Methods :=
  let B := Demo.Backend ["east"] in
  {| findAggregate := findAggregate B;
     findCheck := fun _ _ => (found, None);
     findClient := findClient B;
     findStash := findStash B;
     DeleteAggregate := DeleteAggregate B;
     GetAggregate := GetAggregate B;
     GetAggregateChecks := GetAggregateChecks B;
     GetAggregateClients := GetAggregateClients B;
     GetAggregateResults := GetAggregateResults B;
     GetCheck := GetCheck B;
     DeleteClient := DeleteClient B;
     GetClientHistory := GetClientHistory B;
     GetClient := GetClient B;
     UpdateClient := UpdateClient B;
     ResolveEvent := ResolveEvent B;
     DeleteCheckResult := DeleteCheckResult B;
     DeleteStash := DeleteStash B;
     ClearSilenced := ClearSilenced B;
     PostSilence := PostSilence B;
     PostStash := PostStash B |}.

(** The request with the [dc] query parameter set. *)
Definition with_dc (r : Request) (dc : string) : Request :=
  {| Method := Method r; Path := Path r; QueryDc := dc;
     AcceptEncoding := AcceptEncoding r; JWT := JWT r; Body := Body r |}.


(** A computation does not read the log of calls: run after the calls
    [cs], it does what it does on an empty log, and adds its calls to
    [cs]. *)
Definition log_blind {A} (m : M A) : Prop :=
  forall wr ur cs,
    m {| w := wr; u := ur; calls := cs |}
    = let res := m {| w := wr; u := ur; calls := [] |} in
      (fst res,
       {| w := w (snd res); u := u (snd res);
          calls := (cs ++ calls (snd res))%list |}).

(** ** Running the monad *)

(** Weak-head evaluation of a computation applied to a state, and the
    rewriting of the tests the hypotheses decide. *)
Ltac whnf_lhs :=
  match goal with
  | |- ?lhs = _ =>
      let l := eval lazy head beta iota zeta delta
                 [bind ret when return_ panic orelse elem_at invoke
                  http_Error Header_Add Header_Set WriteHeader Write Encode
                  EncodeGzip modify_w get_Data get_Config lookupDc no_name
                  send_collection write_header read from_1
                  lookup list_lookup] in lhs in
      progress change lhs with l
  end.

Ltac known_step :=
  unfold GetJWTFromContext;
  cbn [fst snd u w calls Config Data find_of find_call visible_of drop
       String.eqb Ascii.eqb Bool.eqb length Nat.eqb Nat.ltb Nat.leb negb
       andb orb is_err fmt_Sprint lookup list_lookup app];
  repeat match goal with
         | H : ?x = true |- context [?x] => rewrite H
         | H : ?x = false |- context [?x] => rewrite H
         | H : ?x = Some _ |- context [?x] => rewrite H
         | H : ?x = None |- context [?x] => rewrite H
         | H : ?x = (_, _) |- context [?x] => rewrite H
         | H : ?x = EmptyString |- context [?x] => rewrite H
         | H : ?x = S _ |- context [?x] => rewrite H
         | H : ?x = O |- context [?x] => rewrite H
         | H : ?x = _ :: _ |- context [?x] => rewrite H
         end.

Ltac known := repeat (progress known_step).

Ltac go := known; repeat (whnf_lhs; known).

(** The handler applied to its initial state is replaced by the outcome
    and state it evaluates to under the hypotheses. *)
Ltac run_served :=
  match goal with
  | |- context [response ?x] =>
      let E := fresh "E" in
      eassert (E : x = _) by (go; reflexivity); rewrite !E; clear E
  end.

Lemma guard1 a : a || false = true -> negb a = false.
Proof. destruct a; auto. Qed.

Lemma guard2 a b : a || (b || false) = true -> negb a && negb b = false.
Proof. destruct a, b; auto. Qed.

Lemma guard3 a b c :
  a || (b || (c || false)) = true -> negb a && negb b && negb c = false.
Proof. destruct a, b, c; auto. Qed.

Ltac split_path r :=
  destruct (strings_Split (Path r) "/")
    as [|?a [|?b [|?c [|?d [|?e ?l]]]]] eqn:?E.

Ltac case_if H :=
  repeat match type of H with
         | context [if ?b then _ else _] =>
             destruct b eqn:?; try discriminate H
         | context [match ?l !! ?i with _ => _ end] =>
             destruct (l !! i) eqn:?; try discriminate H
         end.

Ltac guards :=
  repeat match goal with
         | H : _ || (_ || (_ || false)) = true |- _ => apply guard3 in H
         | H : _ || (_ || false) = true |- _ => apply guard2 in H
         | H : _ || false = true |- _ => apply guard1 in H
         | H : _ && _ = true |- _ => apply andb_prop in H; destruct H
         end.

Lemma Some_eq {A} (a b : A) : Some a = Some b -> a = b.
Proof. congruence. Qed.

(** Case analysis on a lookup request that passes the handler's checks. *)
Ltac enter r H :=
  unfold serve, lookup_handler, target, method_in, existsb in *;
  unfold aggregateHandler, checkHandler, clientHandler, eventHandler,
    resultsHandler, stashHandler;
  split_path r; cbn [lookup list_lookup length Nat.eqb] in H;
  case_if H;
  repeat match goal with
         | Hx : (if ?b then _ else _) = _ |- _ =>
             destruct b eqn:?; try discriminate Hx
         end;
  guards; try discriminate;
  repeat match goal with
         | Hx : Some _ = Some ?x |- _ => apply Some_eq in Hx; subst x
         end;
  cbn [find_of find_call visible_of drop] in *.

Lemma response_of_error_writer msg code :
  response_of (error_writer msg code) = error_response msg code.
Proof. reflexivity. Qed.

(** Every lookup handler, on a request that passes its checks, is the
    resolution of the datacenter, then the authorization gate, then the
    rest of the handler. *)
Lemma lookup_handler_shape F U k r name :
  target k r = Some name ->
  exists rest : string -> M unit,
    forall u0,
      serve (lookup_handler k F U) u0 r
      = (dc <- resolve k F U r name ;; gate F r dc ;; rest dc) (init u0).
Proof.
  intros H.
  destruct k; enter r H; eexists; intros u0; go;
    unfold resolve, gate, init, GetJWTFromContext; cbn [find_of find_call visible_of];
    reflexivity.
Qed.

Lemma bind_Return {A B} (m : M A) (k : A -> M B) s s' :
  m s = (Return, s') -> bind m k s = (Return, s').
Proof. intros E. unfold bind. rewrite E. reflexivity. Qed.

Lemma bind_Next {A B} (m : M A) (k : A -> M B) s a s' :
  m s = (Next a, s') -> bind m k s = k a s'.
Proof. intros E. unfold bind. rewrite E. reflexivity. Qed.

(** A failed name lookup ends the request at once. *)
Lemma resolve_error F U k u0 r name e :
  QueryDc r = "" ->
  snd (find_of k U u0 name) = Some e ->
  resolve k F U r name (init u0)
  = (Return, {| w := error_writer e StatusNotFound; u := u0;
                calls := [find_call k name] |}).
Proof.
  intros Hq He. unfold resolve, init. go. reflexivity.
Qed.

(** More than one visible match: the candidates are sent with status 300
    and the handler returns. *)
Lemma resolve_multiple F U k u0 r name objects :
  QueryDc r = "" ->
  find_of k U u0 name = (objects, None) ->
  (1 < len (visible_of k F objects (JWT r)))%nat ->
  exists rw,
    resolve k F U r name (init u0)
    = (Return, {| w := rw; u := u0; calls := [find_call k name] |})
    /\ option_map fst (wrote rw) = Some StatusMultipleChoices
    /\ written rw
       = [if strings_Contains (AcceptEncoding r) "gzip"
          then Gzip (EValues (visible_of k F objects (JWT r)))
          else Json (EValues (visible_of k F objects (JWT r)))].
Proof.
  intros Hq Hf Hlen.
  destruct (len (visible_of k F objects (JWT r))) as [|[|n]] eqn:Hn;
    [lia | lia |].
  unfold resolve, init.
  destruct (strings_Contains (AcceptEncoding r) "gzip") eqn:Hgz;
    (eexists; split; [go; reflexivity | split; reflexivity]).
Qed.

(** A known datacenter is the value of the resolution, which writes
    nothing. *)
Lemma resolve_known F U k u0 r name dc :
  known_dc k F U u0 r name dc ->
  resolve k F U r name (init u0)
  = (Next dc, {| w := newWriter; u := u0;
                 calls := if QueryDc r =? "" then [find_call k name]
                          else [] |}).
Proof.
  intros [Hq | objects m rest dc' Hq Hf Hlen Hel Hdc].
  - apply String.eqb_neq in Hq. unfold resolve, init. go. reflexivity.
  - unfold resolve, init. unfold lookup in Hdc.
    destruct (len (visible_of k F objects (JWT r))) as [|[|n]] eqn:Hn;
      [| | lia]; go; reflexivity.
Qed.

(** The gate closes on an unauthorized identity. *)
Lemma gate_denied F r dc s :
  filters.GetRequest F dc (JWT r) = true ->
  w s = newWriter ->
  gate F r dc s
  = (Return, {| w := error_writer "" StatusNotFound; u := u s;
                calls := calls s |}).
Proof.
  intros Hg Hw. unfold gate. destruct s as [w0 u1 cs]. cbn in Hw. subst w0.
  go. reflexivity.
Qed.

Lemma serve_lookup_error F U k u0 r name e :
  target k r = Some name ->
  QueryDc r = "" ->
  snd (find_of k U u0 name) = Some e ->
  serve (lookup_handler k F U) u0 r
  = (Return, {| w := error_writer e StatusNotFound; u := u0;
                calls := [find_call k name] |}).
Proof.
  intros H Hq He.
  destruct (lookup_handler_shape F U k r name H) as [rest ->].
  apply bind_Return, resolve_error; assumption.
Qed.

Lemma serve_lookup_denied F U k u0 r name dc :
  target k r = Some name ->
  known_dc k F U u0 r name dc ->
  filters.GetRequest F dc (JWT r) = true ->
  serve (lookup_handler k F U) u0 r
  = (Return, {| w := error_writer "" StatusNotFound; u := u0;
                calls := if QueryDc r =? "" then [find_call k name]
                         else [] |}).
Proof.
  intros H Hk Hg.
  destruct (lookup_handler_shape F U k r name H) as [rest ->].
  rewrite (bind_Next _ _ _ _ _ (resolve_known F U k u0 r name dc Hk)).
  apply bind_Return. rewrite gate_denied by (assumption || reflexivity).
  reflexivity.
Qed.

Lemma append_newline_inj (e : string) :
  e ++ String "010"%char EmptyString = String "010"%char EmptyString ->
  e = "".
Proof.
  destruct e as [|a e]; [reflexivity|].
  cbn. intros H. injection H as _ H. destruct e; discriminate.
Qed.

Lemma error_response_eq e code :
  error_response e code = error_response "" code <-> e = "".
Proof.
  split; [|intros ->; reflexivity].
  unfold error_response. intros H. injection H as H.
  apply append_newline_inj. exact H.
Qed.

(** C7: a datacenter-less lookup whose find call fails is answered
    NotFound with the text of the error; no other call on [u] follows the
    failed find. *)
Theorem C7_no_match_not_found F U k u0 r name e :
  target k r = Some name ->
  QueryDc r = "" ->
  snd (find_of k U u0 name) = Some e ->
  let res := serve (lookup_handler k F U) u0 r in
  response res = error_response e StatusNotFound
  /\ issued res = [find_call k name]
  /\ fst res = Return.
Proof.
  intros H Hq He res. subst res.
  rewrite (serve_lookup_error F U k u0 r name e H Hq He).
  repeat split.
Qed.

(** C4: a datacenter-less lookup with more than one visible match is
    answered 300 Multiple Choices; the body is the JSON text of the whole
    filtered list, each element as the find call tagged it, and the handler
    returns without any call on [u] besides the find. *)
Theorem C4_multiple_choices F U k u0 r name objects :
  target k r = Some name ->
  QueryDc r = "" ->
  find_of k U u0 name = (objects, None) ->
  (1 < len (visible_of k F objects (JWT r)))%nat ->
  let res := serve (lookup_handler k F U) u0 r in
  let visible := visible_of k F objects (JWT r) in
  status (response res) = StatusMultipleChoices
  /\ body (response res)
     = [if strings_Contains (AcceptEncoding r) "gzip"
        then Gzip (EValues visible) else Json (EValues visible)]
  /\ issued res = [find_call k name]
  /\ fst res = Return.
Proof.
  intros H Hq Hf Hlen res visible. subst res visible.
  destruct (lookup_handler_shape F U k r name H) as [rest ->].
  destruct (resolve_multiple F U k u0 r name objects Hq Hf Hlen)
    as (rw & E & Hst & Hb).
  rewrite (bind_Return _ _ _ _ E).
  unfold response, issued, response_of. cbn [fst snd w calls].
  destruct (wrote rw) as [[code h]|]; [|discriminate].
  cbn in Hst. injection Hst as ->.
  cbn [status body]. auto.
Qed.

(** C7 on the deployment: nothing is cached, so the find fails. *)
Lemma C7_witness :
  response
    (serve (lookup_handler LClient (Demo.Filters Demo.east)
              (Demo.Backend ["east"; "west"]))
       Demo.nothing (Demo.get "/clients/foo" ""))
  = error_response "Could not find foo" StatusNotFound.
Proof.
  exact (proj1 (C7_no_match_not_found (Demo.Filters Demo.east)
                  (Demo.Backend ["east"; "west"]) LClient Demo.nothing
                  (Demo.get "/clients/foo" "") "foo" "Could not find foo"
                  eq_refl eq_refl eq_refl)).
Defined.

(** C4 on the deployment: an unrestricted identity sees both clients. *)
Lemma C4_witness :
  status
    (response
       (serve (lookup_handler LClient Demo.Unrestricted
                 (Demo.Backend ["east"; "west"]))
          Demo.both (Demo.get "/clients/foo" "")))
  = StatusMultipleChoices.
Proof.
  refine (proj1 (C4_multiple_choices Demo.Unrestricted
                   (Demo.Backend ["east"; "west"]) LClient Demo.both
                   (Demo.get "/clients/foo" "") "foo"
                   (mk_slice [Demo.object "foo" "west";
                              Demo.object "foo" "east"])
                   eq_refl eq_refl _ _)).
  - vm_compute. reflexivity.
  - vm_compute. lia.
Defined.

(** C1, as amended: once the datacenter is known and the identity is not
    authorized for it, the handler answers NotFound with an empty message,
    never Forbidden, and issues no call besides the find of the
    resolution. A lookup whose find fails has the same status, and its
    answer equals the denial exactly when the text of the find error is
    empty. *)
Theorem C1_denied_is_not_found F U k u0 r name dc :
  target k r = Some name ->
  known_dc k F U u0 r name dc ->
  filters.GetRequest F dc (JWT r) = true ->
  let res := serve (lookup_handler k F U) u0 r in
  response res = error_response "" StatusNotFound
  /\ status (response res) <> StatusForbidden
  /\ issued res = (if QueryDc r =? "" then [find_call k name] else [])
  /\ fst res = Return
  /\ forall u1 r1 name1 e,
       target k r1 = Some name1 ->
       QueryDc r1 = "" ->
       snd (find_of k U u1 name1) = Some e ->
       let absent := response (serve (lookup_handler k F U) u1 r1) in
       status absent = status (response res)
       /\ (absent = response res <-> e = "").
Proof.
  intros H Hk Hg res. subst res.
  rewrite (serve_lookup_denied F U k u0 r name dc H Hk Hg).
  unfold response, issued. cbn [fst snd w calls].
  rewrite response_of_error_writer.
  repeat split; try discriminate.
  - rewrite (serve_lookup_error F U k u1 r1 name1 e) by assumption.
    reflexivity.
  - rewrite (serve_lookup_error F U k u1 r1 name1 e) by assumption.
    cbn [snd w]. rewrite response_of_error_writer.
    apply error_response_eq.
  - intros ->.
    rewrite (serve_lookup_error F U k u1 r1 name1 "") by assumption.
    reflexivity.
Qed.

Lemma Demo_known_west :
  known_dc LCheck (Demo.Filters Demo.east) (Demo.Backend ["east"; "west"])
    Demo.west_only (Demo.get "/checks/foo" "") "foo" "west".
Proof.
  apply (known_resolved LCheck _ _ _ _ _
           (mk_slice [Demo.object "foo" "west"])
           (<["name" := VString "foo"]> (<["dc" := VString "west"]> ∅))
           []).
  - reflexivity.
  - vm_compute. reflexivity.
  - vm_compute. lia.
  - reflexivity.
  - vm_compute. reflexivity.
Defined.

(** C1 on the deployment: [foo] is a check of [west] only and the identity
    may access [east] only. *)
Lemma C1_witness :
  response
    (serve (lookup_handler LCheck (Demo.Filters Demo.east)
              (Demo.Backend ["east"; "west"]))
       Demo.west_only (Demo.get "/checks/foo" ""))
  = error_response "" StatusNotFound.
Proof.
  exact (proj1 (C1_denied_is_not_found (Demo.Filters Demo.east)
                  (Demo.Backend ["east"; "west"]) LCheck Demo.west_only
                  (Demo.get "/checks/foo" "") "foo" "west"
                  eq_refl Demo_known_west eq_refl)).
Defined.

(** C1 as stated fails: the same identity, limited to [east], asks for the
    check [foo] without a datacenter. Where [foo] exists in [west] the
    request is denied; where [foo] exists nowhere the find fails. The two
    answers have different bodies. *)
Lemma C1_counterexample :
  let F := Demo.Filters Demo.east in
  let U := Demo.Backend ["east"; "west"] in
  let r := Demo.get "/checks/foo" "" in
  known_dc LCheck F U Demo.west_only r "foo" "west"
  /\ filters.GetRequest F "west" (JWT r) = true
  /\ findCheck U Demo.nothing "foo" = (nil_slice, Some "Could not find foo")
  /\ body (response (serve (checkHandler F U) Demo.west_only r))
     <> body (response (serve (checkHandler F U) Demo.nothing r)).
Proof.
  cbv zeta. split; [exact Demo_known_west|].
  split; [reflexivity|]. split; [reflexivity|].
  intros H. vm_compute in H. discriminate H.
Qed.

(** C2 at the failing input: the client [foo] exists in [west] and in
    [east], [west] first, and the identity may access [east] only. The
    filtered match set is the single client of [east], which the same
    identity reads when it names the datacenter; without the datacenter the
    handler takes the datacenter of the first unfiltered match, [west], and
    answers NotFound without reading any client. *)
Theorem C2_single_visible_match_not_resolved :
  let F := Demo.Filters Demo.east in
  let U := Demo.Backend ["east"; "west"] in
  visible_of LClient F (fst (find_of LClient U Demo.both "foo")) None
  = mk_slice [Demo.object "foo" "east"]
  /\ response (serve (clientHandler F U) Demo.both (Demo.get "/clients/foo" "east"))
     = {| status := StatusOK; sent_headers := [];
          body := [Json (EValue (Demo.object "foo" "east"))] |}
  /\ issued (serve (clientHandler F U) Demo.both (Demo.get "/clients/foo" "east"))
     = [CGetClient "east" "foo"]
  /\ response (serve (clientHandler F U) Demo.both (Demo.get "/clients/foo" ""))
     = error_response "" StatusNotFound
  /\ issued (serve (clientHandler F U) Demo.both (Demo.get "/clients/foo" ""))
     = [CfindClient "foo"].
Proof.
  cbv zeta. repeat split; vm_compute; reflexivity.
Qed.

(** ** The receiver is a frame of every handler *)

Lemma keeps_ret {A} (a : A) : keeps_u (ret a).
Proof. intros s. reflexivity. Qed.

Lemma keeps_return {A} : keeps_u (@return_ A).
Proof. intros s. reflexivity. Qed.

Lemma keeps_panic {A} : keeps_u (@panic A).
Proof. intros s. reflexivity. Qed.

Lemma keeps_bind {A B} (m : M A) (k : A -> M B) :
  keeps_u m -> (forall a, keeps_u (k a)) -> keeps_u (bind m k).
Proof.
  intros Hm Hk s. unfold bind. specialize (Hm s).
  destruct (m s) as [[a| |] s']; cbn [snd] in *; [|assumption..].
  rewrite Hk. assumption.
Qed.

Lemma keeps_when c (body : M unit) : keeps_u body -> keeps_u (when c body).
Proof. intros H. destruct c; [exact H | apply keeps_ret]. Qed.

Lemma keeps_modify_w f : keeps_u (modify_w f).
Proof. intros s. reflexivity. Qed.

Lemma keeps_invoke {A} c (f : Uchiwa -> A) : keeps_u (invoke c f).
Proof. intros s. reflexivity. Qed.

Lemma keeps_get_Data : keeps_u get_Data.
Proof. intros s. reflexivity. Qed.

Lemma keeps_get_Config : keeps_u get_Config.
Proof. intros s. reflexivity. Qed.

Lemma keeps_elem_at {A} (l : list A) i : keeps_u (elem_at l i).
Proof. unfold elem_at. destruct (l !! i); [apply keeps_ret | apply keeps_panic]. Qed.

Create HintDb frame.

#[local] Hint Resolve keeps_ret keeps_return keeps_panic keeps_modify_w
  keeps_invoke keeps_get_Data keeps_get_Config keeps_elem_at : frame.

(** One step of the frame argument: the head of the computation decides. *)
Ltac keeps_step :=
  match goal with
  | |- keeps_u (bind _ _) => apply keeps_bind; [|intros ?]
  | |- keeps_u (when _ _) => apply keeps_when
  | |- keeps_u (if ?b then _ else _) => destruct b
  | |- keeps_u (match ?x with _ => _ end) => destruct x
  | |- keeps_u _ => solve [auto with frame]
  | |- keeps_u (?h _) => unfold h
  | |- keeps_u (?h _ _) => unfold h
  | |- keeps_u (?h _ _ _) => unfold h
  | |- keeps_u (?h _ _ _ _) => unfold h
  | |- keeps_u (?h _ _ _ _ _) => unfold h
  | |- keeps_u ?h => unfold h
  end.

Ltac keeps := repeat keeps_step.

Lemma keeps_lookup_handler k F U r : keeps_u (lookup_handler k F U r).
Proof. destruct k; cbn [lookup_handler]; keeps. Qed.

Lemma keeps_collection_handler k F J U r :
  keeps_u (collection_handler k F J U r).
Proof. destruct k; cbn [collection_handler]; keeps. Qed.

(** C5: no handler changes the cached data. Served on any request, by any
    identity, whether the dispatched command succeeds or fails (or the
    handler panics), each of the handlers that carry a write command, and
    every other handler of a lookup or of a collection, leaves [u.Data] as
    it was. *)
Theorem C5_cache_unchanged F U J u0 r :
  (forall k, cache (serve (lookup_handler k F U) u0 r) = Data u0)
  /\ (forall k, cache (serve (collection_handler k F J U) u0 r) = Data u0)
  /\ cache (serve (clientHandler F U) u0 r) = Data u0
  /\ cache (serve (eventHandler F U) u0 r) = Data u0
  /\ cache (serve (resultsHandler F U) u0 r) = Data u0
  /\ cache (serve (stashHandler F U) u0 r) = Data u0
  /\ cache (serve (silencedHandler F U J) u0 r) = Data u0
  /\ cache (serve (stashesHandler F U J) u0 r) = Data u0
  /\ cache (serve (clientsHandler F U J) u0 r) = Data u0.
Proof.
  assert (HL : forall k, cache (serve (lookup_handler k F U) u0 r) = Data u0).
  { intros k. unfold cache, serve. rewrite keeps_lookup_handler. reflexivity. }
  assert (HC : forall k,
             cache (serve (collection_handler k F J U) u0 r) = Data u0).
  { intros k. unfold cache, serve. rewrite keeps_collection_handler.
    reflexivity. }
  split; [exact HL|]. split; [exact HC|].
  split; [exact (HL LClient)|]. split; [exact (HL LEvent)|].
  split; [exact (HL LResult)|]. split; [exact (HL LStash)|].
  split; [exact (HC KSilenced)|]. split; [exact (HC KStashes)|].
  exact (HC KClients).
Qed.

(** ** Silences *)

Lemma open_ended_set_Creator cfg d c :
  open_ended cfg (set_Creator d c) = open_ended cfg d.
Proof. reflexivity. Qed.

Lemma no_reason_set_Creator cfg d c :
  no_reason cfg (set_Creator d c) = no_reason cfg d.
Proof. reflexivity. Qed.

Lemma stamp_Creator_run token data s :
  username_typed token = true ->
  stamp_Creator token data s = (Next (stamped token data), s).
Proof.
  unfold stamp_Creator, stamped, username, username_typed.
  destruct token as [t|]; [|reflexivity].
  destruct (claim t "username"); try discriminate; reflexivity.
Qed.

Lemma open_ended_stamped cfg token d :
  open_ended cfg (stamped token d) = open_ended cfg d.
Proof. unfold stamped. destruct (username token); reflexivity. Qed.

Lemma no_reason_stamped cfg token d :
  no_reason cfg (stamped token d) = no_reason cfg d.
Proof. unfold stamped. destruct (username token); reflexivity. Qed.

(** A POST on [/silenced], once the body is decoded, the identity is
    authorized for the datacenter of the entry and the username claim, if
    any, is a string. *)
Lemma silenced_post_run F U J u0 r data :
  Method r = MethodPost ->
  decode_silence J (Body r) = Some data ->
  filters.GetRequest F (Dc data) (JWT r) = false ->
  username_typed (JWT r) = true ->
  serve (silencedHandler F U J) u0 r = silenced_post_result U u0 r data.
Proof.
  intros Hm Hd Hg Ht.
  unfold serve, silencedHandler, GetJWTFromContext. rewrite Hm, Hd.
  unfold MethodPost, MethodGet, MethodHead.
  go. rewrite (stamp_Creator_run _ _ _ Ht). go.
  unfold silenced_post_result, clear_path.
  destruct (strings_Split (Path r) "/") as [|a [|b [|c l]]];
    cbn [length lookup list_lookup]; go;
    try (destruct (c =? "clear") eqn:Hc; go;
         [destruct (ClearSilenced U u0 _); go; reflexivity|]).
  all: rewrite open_ended_stamped, no_reason_stamped.
  all: destruct (open_ended (Config u0) data) eqn:Ho; go; [reflexivity|].
  all: destruct (no_reason (Config u0) data) eqn:Hr; go; [reflexivity|].
  all: destruct (PostSilence U u0 _); go; reflexivity.
Qed.

Lemma stamp_Creator_panic token data s :
  username_typed token = false ->
  stamp_Creator token data s = (Panic, s).
Proof.
  unfold stamp_Creator, username_typed.
  destruct token as [t|]; [|discriminate].
  destruct (claim t "username"); try discriminate; reflexivity.
Qed.



(** C9: on a POST to the silenced endpoint by an authorized identity whose
    token carries the username [name], the entry handed to [ClearSilenced]
    (clear endpoint) or to [PostSilence] (creation that passes the policy)
    is the decoded entry with [Creator] replaced by [name], whatever
    creator the body gave. *)
Theorem C9_creator_overwritten F U J u0 r data t name :
  Method r = MethodPost ->
  decode_silence J (Body r) = Some data ->
  filters.GetRequest F (Dc data) (JWT r) = false ->
  JWT r = Some t ->
  Claims t !! "username" = Some (VString name) ->
  let res := serve (silencedHandler F U J) u0 r in
  let entry := set_Creator data name in
  Creator entry = name
  /\ issued res
     = (if clear_path r then [CClearSilenced entry]
        else if open_ended (Config u0) data || no_reason (Config u0) data
             then []
             else [CPostSilence entry])
  /\ fst res <> Panic.
Proof.
  intros Hm Hd Hg Hj Hc res entry. subst res entry.
  assert (Hu : username (JWT r) = Some name).
  { rewrite Hj. unfold username, claim. rewrite Hc. reflexivity. }
  assert (Ht : username_typed (JWT r) = true).
  { rewrite Hj. unfold username_typed, claim. rewrite Hc. reflexivity. }
  rewrite (silenced_post_run F U J u0 r data Hm Hd Hg Ht).
  unfold silenced_post_result, issued, stamped. rewrite Hu.
  split; [reflexivity|].
  destruct (clear_path r); [split; [reflexivity | discriminate]|].
  destruct (open_ended (Config u0) data); [split; [reflexivity | discriminate]|].
  destruct (no_reason (Config u0) data); [split; [reflexivity | discriminate]|].
  destruct (is_err (PostSilence U u0 (set_Creator data name)));
    split; (reflexivity || discriminate).
Qed.


(** C9 on the deployment: the body names [mallory], the token [alice]. *)
Lemma C9_witness :
  issued
    (serve (silencedHandler Demo.Unrestricted (Demo.Backend ["east"])
              (Demo.Decoded None (Some (Demo.entry "planned" "mallory")) None))
       Demo.nothing (Demo.post "/silenced" (Some Demo.alice)))
  = [CPostSilence (Demo.entry "planned" "alice")].
Proof.
  refine (proj1 (proj2 (C9_creator_overwritten Demo.Unrestricted
                          (Demo.Backend ["east"])
                          (Demo.Decoded None
                             (Some (Demo.entry "planned" "mallory")) None)
                          Demo.nothing (Demo.post "/silenced" (Some Demo.alice))
                          (Demo.entry "planned" "mallory") Demo.alice "alice"
                          eq_refl eq_refl eq_refl eq_refl _))).
  vm_compute. reflexivity.
Defined.

(** ** Clients, collections and subscriptions *)

(** C6: the payload of a POST on [/clients] passes the per-object filter
    before anything else is done with it. A payload the identity may not
    act on is answered NotFound and [UpdateClient] is not called; an
    authorized payload is handed to [UpdateClient] as decoded. *)
Theorem C6_client_payload_filtered F U J u0 r payload :
  Method r = MethodPost ->
  decode_value J (Body r) = Some payload ->
  let res := serve (clientsHandler F U J) u0 r in
  (filters.Client F payload (JWT r) = false ->
   response res = error_response "" StatusNotFound
   /\ issued res = []
   /\ fst res = Return)
  /\ (filters.Client F payload (JWT r) = true ->
      issued res = [CUpdateClient payload])
  /\ existsb is_UpdateClient (issued res) = filters.Client F payload (JWT r).
Proof.
  intros Hm Hd res. subst res.
  unfold serve, clientsHandler, GetJWTFromContext. rewrite Hm, Hd.
  unfold MethodPost, MethodGet, MethodHead.
  destruct (filters.Client F payload (JWT r)) eqn:Hc.
  - match goal with
    | |- context [issued ?x] =>
        assert (E : exists o rw,
                   x = (o, {| w := rw; u := u0;
                              calls := [CUpdateClient payload] |}))
    end.
    { destruct (UpdateClient U u0 payload) eqn:He;
        do 2 eexists; go; reflexivity. }
    destruct E as (o & rw & ->).
    split; [discriminate|]. split; reflexivity.
  - match goal with
    | |- context [issued ?x] =>
        assert (E : x = (Return, {| w := error_writer "" StatusNotFound;
                                    u := u0; calls := [] |}))
          by (go; reflexivity);
        rewrite E
    end.
    split; [|split; [discriminate | reflexivity]].
    intros _. repeat split.
Qed.

(** C6 on the deployment: a client of [west] posted by an identity limited
    to [east]. *)
Lemma C6_witness :
  existsb is_UpdateClient
    (issued
       (serve (clientsHandler (Demo.Filters Demo.east) (Demo.Backend ["east"])
                 (Demo.Decoded (Some (Demo.object "foo" "west")) None None))
          Demo.nothing (Demo.post "/clients" None)))
  = false.
Proof.
  refine (eq_trans
            (proj2 (proj2 (C6_client_payload_filtered (Demo.Filters Demo.east)
                             (Demo.Backend ["east"])
                             (Demo.Decoded (Some (Demo.object "foo" "west"))
                                None None)
                             Demo.nothing (Demo.post "/clients" None)
                             (Demo.object "foo" "west") eq_refl eq_refl)))
            _).
  vm_compute. reflexivity.
Defined.

(** The guard [if len(x) == 0 { x = make([]T, 0) }] is what keeps [null]
    out of the body: a filter may return the nil slice. *)
Lemma or_empty_never_null (s : slice value) :
  is_null (EValues (or_empty s)) = false
  /\ (len s = 0%nat -> is_empty_array (EValues (or_empty s)) = true)
  /\ is_null (EValues (@nil_slice value)) = true.
Proof.
  unfold or_empty. destruct s as [|[|x l]]; cbn; repeat split; discriminate.
Qed.

Lemma orb_false_end a b : a || (b || false) = true -> a || b = true.
Proof. rewrite orb_false_r. auto. Qed.

(** A collection endpoint whose filter leaves nothing visible. *)
Lemma collection_empty_run k F J U u0 r :
  method_in (Method r) [MethodGet; MethodHead] = true ->
  visible_len k F (Data u0) (JWT r) = 0%nat ->
  exists o rw,
    serve (collection_handler k F J U) u0 r
    = (o, {| w := rw; u := u0; calls := [] |})
    /\ o <> Panic
    /\ option_map fst (wrote rw) = Some StatusOK
    /\ empty_array_body (written rw) = true.
Proof.
  intros Hm Hlen.
  unfold method_in, existsb in Hm.
  pose proof (guard2 _ _ Hm) as Hn. apply orb_false_end in Hm.
  unfold serve, collection_handler, visible_len in *.
  destruct (strings_Contains (AcceptEncoding r) "gzip") eqn:Hgz.
  all: destruct k;
    unfold aggregatesHandler, checksHandler, clientsHandler, eventsHandler,
      silencedHandler, stashesHandler, subscriptionsHandler, or_empty;
    do 2 eexists; (split; [go; reflexivity|]);
    (split; [discriminate | split; reflexivity]).
Qed.

(** C8: a GET or HEAD on a collection endpoint whose filter leaves no
    visible element is answered 200 with a body that is the JSON text of
    an empty array, never [null]; the handler neither panics nor answers
    an error. *)
Theorem C8_empty_collection k F J U u0 r :
  method_in (Method r) [MethodGet; MethodHead] = true ->
  visible_len k F (Data u0) (JWT r) = 0%nat ->
  let res := serve (collection_handler k F J U) u0 r in
  status (response res) = StatusOK
  /\ empty_array_body (body (response res)) = true
  /\ fst res <> Panic
  /\ issued res = [].
Proof.
  intros Hm Hlen res. subst res.
  destruct (collection_empty_run k F J U u0 r Hm Hlen)
    as (o & rw & -> & Ho & Hst & Hb).
  unfold response, issued, response_of. cbn [fst snd w calls].
  destruct (wrote rw) as [[code h]|]; [|discriminate].
  cbn in Hst. injection Hst as ->. cbn [status body]. auto.
Qed.

(** C8 on the deployment: the clients of [west] read by an identity
    limited to [east]. *)
Lemma C8_witness :
  empty_array_body
    (body
       (response
          (serve (collection_handler KClients (Demo.Filters Demo.east)
                    (Demo.Decoded None None None) (Demo.Backend ["east"]))
             Demo.west_only (Demo.get "/clients" ""))))
  = true.
Proof.
  refine (proj1 (proj2 (C8_empty_collection KClients (Demo.Filters Demo.east)
                          (Demo.Decoded None None None) (Demo.Backend ["east"])
                          Demo.west_only (Demo.get "/clients" "")
                          eq_refl _))).
  vm_compute. reflexivity.
Defined.

(** C10: a GET or HEAD on [/subscriptions/:name] is decided by the filter
    applied to the one-element list holding the name: NotFound when the
    filter leaves nothing, 200 with no body otherwise. The cached data is
    not consulted: no call is issued and the answer is the same whatever
    the cache holds. *)
Theorem C10_subscription_by_filter_only F u0 r x :
  method_in (Method r) [MethodGet; MethodHead] = true ->
  strings_Split (Path r) "/" !! 2%nat = Some x ->
  x <> "" ->
  let name := strings_Join (drop 2 (strings_Split (Path r) "/")) "/" in
  let result :=
    filters.Subscriptions F
      (mk_slice [ {| structs.SubDc := ""; structs.Name := name |} ])
      (JWT r) in
  let res := serve (subscriptionHandler F) u0 r in
  response res
  = (if (len result =? 0)%nat then error_response "" StatusNotFound
     else {| status := StatusOK; sent_headers := []; body := [] |})
  /\ issued res = []
  /\ fst res = Return
  /\ forall u1,
       response (serve (subscriptionHandler F) u1 r) = response res.
Proof.
  intros Hm Hx Hne. cbv zeta.
  unfold method_in, existsb in Hm. apply guard2 in Hm.
  apply String.eqb_neq in Hne.
  assert (E : forall u1,
             serve (subscriptionHandler F) u1 r
             = (Return,
                {| w := if (len (filters.Subscriptions F
                                   (mk_slice
                                      [ {| structs.SubDc := "";
                                           structs.Name :=
                                             strings_Join
                                               (drop 2
                                                  (strings_Split (Path r) "/"))
                                               "/" |} ])
                                   (JWT r)) =? 0)%nat
                        then error_writer "" StatusNotFound
                        else {| header := []; wrote := Some (StatusOK, []);
                                written := [] |};
                   u := u1; calls := [] |})).
  { intros u1. unfold serve, subscriptionHandler.
    destruct (strings_Split (Path r) "/") as [|a [|b [|c l]]];
      try discriminate.
    cbn in Hx. injection Hx as ->.
    destruct (len _ =? 0)%nat eqn:Hl; go; reflexivity. }
  rewrite (E u0). unfold response, issued. cbn [fst snd w calls].
  repeat split.
  - destruct (len _ =? 0)%nat; reflexivity.
  - intros u1. rewrite (E u1). reflexivity.
Qed.

(** C10 on the deployment: nothing is cached, the identity is
    unrestricted, and the subscription [web] is found. *)
Lemma C10_witness :
  status
    (response
       (serve (subscriptionHandler Demo.Unrestricted) Demo.nothing
          (Demo.get "/subscriptions/web" "")))
  = StatusOK.
Proof.
  refine (eq_trans
            (f_equal status
               (proj1 (C10_subscription_by_filter_only Demo.Unrestricted
                         Demo.nothing (Demo.get "/subscriptions/web" "") "web"
                         eq_refl eq_refl _)))
            _).
  - discriminate.
  - reflexivity.
Defined.

(** ** Every call passes the filters *)

Section Calls.

Context (P : Call -> bool).

Lemma ac_ret {A} (a : A) : all_calls P (ret a).
Proof. intros s H. exact H. Qed.

Lemma ac_return {A} : all_calls P (@return_ A).
Proof. intros s H. exact H. Qed.

Lemma ac_panic {A} : all_calls P (@panic A).
Proof. intros s H. exact H. Qed.

Lemma ac_bind {A B} (m : M A) (k : A -> M B) :
  all_calls P m -> (forall a, all_calls P (k a)) -> all_calls P (bind m k).
Proof.
  intros Hm Hk s H. unfold bind. specialize (Hm s H).
  destruct (m s) as [[a| |] s']; cbn [snd] in *; [|assumption..].
  apply Hk. assumption.
Qed.

Lemma ac_when c (body : M unit) :
  all_calls P body -> all_calls P (when c body).
Proof. intros H. destruct c; [exact H | apply ac_ret]. Qed.

(** A guard that answers and returns: what follows runs only when the
    guard is false. *)
Lemma ac_guard {B} c (m : M unit) (k : M B) :
  all_calls P m ->
  (c = false -> all_calls P k) ->
  all_calls P (bind (when c (bind m (fun _ => return_))) (fun _ => k)).
Proof.
  intros Hm Hk s H. unfold bind, when, return_, ret.
  destruct c.
  - specialize (Hm s H). destruct (m s) as [[[]| |] s']; exact Hm.
  - apply Hk; [reflexivity | exact H].
Qed.

Lemma ac_modify_w f : all_calls P (modify_w f).
Proof. intros s H. exact H. Qed.

Lemma ac_get_Data : all_calls P get_Data.
Proof. intros s H. exact H. Qed.

Lemma ac_get_Config : all_calls P get_Config.
Proof. intros s H. exact H. Qed.

Lemma ac_elem_at {A} (l : list A) i : all_calls P (elem_at l i).
Proof.
  unfold elem_at. destruct (l !! i); [apply ac_ret | apply ac_panic].
Qed.

Lemma ac_invoke {A} c (f : Uchiwa -> A) :
  P c = true -> all_calls P (invoke c f).
Proof.
  intros Hc s H. cbn. rewrite forallb_app, H. cbn. rewrite Hc. reflexivity.
Qed.

Lemma ac_http_Error msg code : all_calls P (http_Error msg code).
Proof. intros s H. exact H. Qed.

(** The creator is set, the datacenter of the entry is not. *)
Lemma ac_stamp_Creator {B} token data (k : silence -> M B) :
  (forall d, Dc d = Dc data -> all_calls P (k d)) ->
  all_calls P (bind (stamp_Creator token data) k).
Proof.
  intros Hk s H. unfold bind, stamp_Creator.
  destruct token as [t|]; [|apply Hk; [reflexivity | exact H]].
  destruct (negb (is_nil (claim t "username")));
    [|apply Hk; [reflexivity | exact H]].
  destruct (claim t "username"); try exact H.
  apply Hk; [reflexivity | exact H].
Qed.

(** The username is added to the content, the datacenter of the stash is
    not changed. *)
Lemma ac_stamp_Content {B} token data (k : stash -> M B) :
  (forall d, StashDc d = StashDc data -> all_calls P (k d)) ->
  all_calls P (bind (stamp_Content token data) k).
Proof.
  intros Hk s H. unfold bind, stamp_Content.
  destruct token as [t|]; [|apply Hk; [reflexivity | exact H]].
  destruct (negb (is_nil (claim t "username")));
    [|apply Hk; [reflexivity | exact H]].
  destruct (Content data); [|exact H].
  apply Hk; [reflexivity | exact H].
Qed.

End Calls.

(** The obligation of a call: the guards passed on the way decide it. *)
Ltac permitted_call :=
  unfold GetJWTFromContext in *; cbn [permitted call_dc];
  repeat match goal with
         | H : Dc _ = Dc _ |- _ => rewrite H
         | H : StashDc _ = StashDc _ |- _ => rewrite H
         | H : filters.GetRequest _ _ _ = false |- _ => rewrite H
         | H : negb _ = false |- _ => apply negb_false_iff in H; rewrite H
         end;
  reflexivity.

Ltac calls_step :=
  match goal with
  | |- all_calls _ (let _ := _ in _) => cbv zeta
  | |- all_calls _ (bind (when _ (bind _ (fun _ => return_))) _) =>
      apply ac_guard; [|intros ?]
  | |- all_calls _ (bind (stamp_Creator _ _) _) =>
      apply ac_stamp_Creator; intros ? ?
  | |- all_calls _ (bind (stamp_Content _ _) _) =>
      apply ac_stamp_Content; intros ? ?
  | |- all_calls _ (bind _ _) => apply ac_bind; [|intros ?]
  | |- all_calls _ (when _ _) => apply ac_when
  | |- all_calls _ (invoke _ _) => apply ac_invoke; permitted_call
  | |- all_calls _ (if ?b then _ else _) => destruct b
  | |- all_calls _ (match ?x with _ => _ end) => destruct x
  | |- all_calls _ (ret _) => apply ac_ret
  | |- all_calls _ return_ => apply ac_return
  | |- all_calls _ panic => apply ac_panic
  | |- all_calls _ (modify_w _) => apply ac_modify_w
  | |- all_calls _ get_Data => apply ac_get_Data
  | |- all_calls _ get_Config => apply ac_get_Config
  | |- all_calls _ (elem_at _ _) => apply ac_elem_at
  | |- all_calls _ (http_Error _ _) => apply ac_http_Error
  | |- all_calls _ (?h _) => unfold h
  | |- all_calls _ (?h _ _) => unfold h
  | |- all_calls _ (?h _ _ _) => unfold h
  | |- all_calls _ (?h _ _ _ _) => unfold h
  | |- all_calls _ (?h _ _ _ _ _) => unfold h
  | |- all_calls _ ?h => unfold h
  end.

Ltac calls_ok := repeat calls_step.

Lemma permitted_lookup_handler k F U r :
  all_calls (permitted F (JWT r)) (lookup_handler k F U r).
Proof. destruct k; cbn [lookup_handler]; calls_ok. Qed.

Lemma permitted_collection_handler k F J U r :
  all_calls (permitted F (JWT r)) (collection_handler k F J U r).
Proof. destruct k; cbn [collection_handler]; calls_ok. Qed.

(** X1: whatever the request, every read by key and every command a handler
    issues names a datacenter that [Filters.GetRequest] did not deny for
    the token of the request, and every client handed to [UpdateClient] was
    accepted by [Filters.Client]. *)
Theorem X1_calls_pass_the_filters F U J u0 r :
  (forall k, forallb (permitted F (JWT r))
               (issued (serve (lookup_handler k F U) u0 r)) = true)
  /\ (forall k, forallb (permitted F (JWT r))
                  (issued (serve (collection_handler k F J U) u0 r)) = true).
Proof.
  split; intros k; unfold issued, serve.
  - apply permitted_lookup_handler. reflexivity.
  - apply permitted_collection_handler. reflexivity.
Qed.

(** ** The other handlers *)

(** X2: [datacenterHandler] answers a denied datacenter and an unknown one
    with the same status and the same empty message, but not with the same
    headers: the headers of the JSON answer are added before the lookup, so
    the answer for an unknown datacenter carries [Accept-Charset] and the
    denial does not. *)
Theorem X2_datacenter_denied_or_unknown F X u0 r name :
  method_in (Method r) [MethodGet; MethodHead] = true ->
  strings_Split (Path r) "/" !! 2%nat = Some name ->
  name <> "" ->
  let res := serve (datacenterHandler F X) u0 r in
  (filters.GetRequest F name (JWT r) = true ->
   response res = error_response "" StatusNotFound)
  /\ (filters.GetRequest F name (JWT r) = false ->
      is_err (snd (Datacenter X u0 name)) = true ->
      response res
      = {| status := StatusNotFound;
           sent_headers :=
             ("Accept-Charset", "utf-8")
             :: sent_headers (error_response "" StatusNotFound);
           body := body (error_response "" StatusNotFound) |}).
Proof.
  intros Hm Hn Hne. cbv zeta.
  unfold method_in, existsb in Hm. apply guard2 in Hm.
  apply String.eqb_neq in Hne.
  unfold serve, datacenterHandler.
  destruct (strings_Split (Path r) "/") as [|a [|b [|c l]]]; try discriminate.
  cbn in Hn. apply Some_eq in Hn. subst c.
  split; intros Hg.
  - match goal with
    | |- response ?x = _ =>
        assert (E : x = (Return, {| w := error_writer "" StatusNotFound;
                                    u := u0; calls := [] |}))
          by (go; reflexivity);
        rewrite E
    end.
    reflexivity.
  - intros He.
    match goal with
    | |- response ?x = ?y =>
        assert (E : exists rw, x = (Return, {| w := rw; u := u0; calls := [] |})
                               /\ response_of rw = y)
    end.
    { eexists. split; [go; reflexivity | reflexivity]. }
    destruct E as (rw & -> & <-). reflexivity.
Qed.

(** X2 on the deployment: [north] is not a datacenter. *)
Lemma X2_witness :
  sent_headers
    (response
       (serve (datacenterHandler Demo.Unrestricted Demo_Others) Demo.nothing
          (Demo.get "/datacenters/north" "")))
  = ("Accept-Charset", "utf-8")
    :: sent_headers (error_response "" StatusNotFound).
Proof.
  refine (f_equal sent_headers
            (proj2 (X2_datacenter_denied_or_unknown Demo.Unrestricted
                      Demo_Others Demo.nothing
                      (Demo.get "/datacenters/north" "") "north"
                      eq_refl eq_refl _)
               eq_refl eq_refl)).
  discriminate.
Defined.

(** X3: a POST on [/request] whose body decodes is answered in one of two
    ways only. A denied datacenter and a failed execution give the very
    same answer, NotFound with an empty message and the same headers; an
    execution that succeeds gives an empty 200. *)
Theorem X3_request_outcomes F X u0 r data :
  Method r = MethodPost ->
  decode_execution X (Body r) = Some data ->
  let res := serve (requestHandler F X) u0 r in
  response res
  = (if filters.GetRequest F (ExecDc data) (JWT r)
        || is_err (IssueCheckExecution X u0 data)
     then error_response "" StatusNotFound
     else {| status := StatusOK; sent_headers := []; body := [] |})
  /\ fst res = Return.
Proof.
  intros Hm Hd. cbv zeta.
  unfold serve, requestHandler. rewrite Hm, Hd. unfold MethodPost.
  destruct (filters.GetRequest F (ExecDc data) (JWT r)) eqn:Hg;
    [|destruct (IssueCheckExecution X u0 data) eqn:Hi].
  all: match goal with
       | |- response ?x = ?y /\ _ =>
           assert (E : exists rw,
                      x = (Return, {| w := rw; u := u0; calls := [] |})
                      /\ response_of rw = y)
             by (eexists; split; [go; reflexivity | reflexivity]);
           destruct E as (rw & -> & <-)
       end.
  all: split; reflexivity.
Qed.

(** X3 on the deployment: the execution is for [west], which fails. *)
Lemma X3_witness :
  response
    (serve (requestHandler Demo.Unrestricted Demo_Others) Demo.nothing
       (Demo.post "/request" None))
  = error_response "" StatusNotFound.
Proof.
  exact (proj1 (X3_request_outcomes Demo.Unrestricted Demo_Others Demo.nothing
                  (Demo.post "/request" None)
                  {| ExecCheck := "cpu"; ExecDc := "west"; Subscribers := [] |}
                  eq_refl eq_refl)).
Defined.

Lemma range_Sensu_unhealthy m code :
  range_Sensu m code
  = if unhealthy m then StatusServiceUnavailable else code.
Proof.
  revert code. induction m as [|[name sensu] m IH]; intros code.
  - reflexivity.
  - cbn [range_Sensu unhealthy existsb snd]. rewrite IH.
    fold (unhealthy m).
    destruct (negb (Output sensu =? "ok")), (unhealthy m); reflexivity.
Qed.

Lemma unhealthy_Permutation m m' :
  Permutation m m' -> unhealthy m = unhealthy m'.
Proof.
  unfold unhealthy.
  induction 1 as [|x l l' _ IH|x y l|l l' l'' _ IH1 _ IH2]; cbn.
  - reflexivity.
  - rewrite IH. reflexivity.
  - destruct (negb (Output (snd y) =? "ok")),
             (negb (Output (snd x) =? "ok")); reflexivity.
  - congruence.
Qed.

(** X4: the status of [/health] is 503 exactly when a part the path asks
    about is not ok: some datacenter unless the path is [/health/uchiwa],
    the dashboard itself unless the path is [/health/sensu]. It does not
    depend on the order in which the loop visits the map of datacenters,
    nor on the method; the body is the JSON text of the part asked about. *)
Theorem X4_health_status X u0 r a path :
  Path r = String a path ->
  let health := DataHealth X u0 in
  let res := serve (healthHandler X) u0 r in
  let sensu_bad :=
    if path =? "health/uchiwa" then false else unhealthy (Sensu health) in
  let uchiwa_bad :=
    if path =? "health/sensu" then false
    else negb (UchiwaHealth health =? "ok") in
  status (response res)
  = (if sensu_bad || uchiwa_bad then StatusServiceUnavailable else StatusOK)
  /\ body (response res)
     = [Text (json_Marshal X
                (if path =? "health/sensu" then HSensu (Sensu health)
                 else if path =? "health/uchiwa"
                      then HUchiwa (UchiwaHealth health)
                      else HAll health))]
  /\ fst res = Return
  /\ (forall m code, Permutation (Sensu health) m ->
                     range_Sensu m code = range_Sensu (Sensu health) code).
Proof.
  intros Hp. cbv zeta.
  unfold serve, healthHandler. rewrite Hp.
  assert (Hperm : forall m code,
             Permutation (Sensu (DataHealth X u0)) m ->
             range_Sensu m code = range_Sensu (Sensu (DataHealth X u0)) code).
  { intros m code HP. rewrite !range_Sensu_unhealthy.
    rewrite (unhealthy_Permutation _ _ HP). reflexivity. }
  destruct (path =? "health/sensu") eqn:Hs;
    [apply String.eqb_eq in Hs; subst path; cbn [String.eqb Ascii.eqb Bool.eqb]
    |destruct (path =? "health/uchiwa") eqn:Hu].
  all: run_served.
  all: unfold response, response_of; cbn [snd fst w wrote written status body].
  all: rewrite ?range_Sensu_unhealthy.
  all: repeat split; try exact Hperm.
  all: destruct (unhealthy (Sensu (DataHealth X u0)));
    destruct (negb (UchiwaHealth (DataHealth X u0) =? "ok")); reflexivity.
Qed.

(** X4 on the deployment: [west] is failing, the dashboard is ok. *)
Lemma X4_witness :
  status
    (response
       (serve (healthHandler Demo_Others) Demo.nothing
          (Demo.get "/health/sensu" "")))
  = StatusServiceUnavailable
  /\ status
       (response
          (serve (healthHandler Demo_Others) Demo.nothing
             (Demo.get "/health/uchiwa" "")))
     = StatusOK.
Proof.
  split.
  - exact (proj1 (X4_health_status Demo_Others Demo.nothing
                    (Demo.get "/health/sensu" "") "/" "health/sensu"
                    eq_refl)).
  - exact (proj1 (X4_health_status Demo_Others Demo.nothing
                    (Demo.get "/health/uchiwa" "") "/" "health/uchiwa"
                    eq_refl)).
Defined.

Lemma split_on_cons c s : exists x l, split_on c s = x :: l.
Proof.
  induction s as [|a s (x & l & IH)]; cbn.
  - eauto.
  - destruct (Ascii.eqb a c); [eauto|]. rewrite IH. eauto.
Qed.

Lemma split_config_prefix rest :
  strings_Split ("/config/" ++ rest) "/"
  = "" :: "config" :: strings_Split rest "/".
Proof.
  unfold strings_Split.
  change ("/config/" ++ rest)
    with (String "/" (String "c" (String "o" (String "n" (String "f"
            (String "i" (String "g" (String "/" rest)))))))).
  destruct (split_on_cons "/" rest) as (x & l & Hs).
  cbn [split_on Ascii.eqb Bool.eqb]. rewrite Hs. reflexivity.
Qed.

(** X5: under [/config/], the route that is served without authentication,
    [configHandler] never sends the public configuration as a whole: it
    sends the auth driver for [auth], the users options for [users], and
    NotFound for anything else, the empty name included. *)
Theorem X5_config_parts X u0 r rest :
  method_in (Method r) [MethodGet; MethodHead] = true ->
  Path r = "/config/" ++ rest ->
  let res := serve (configHandler X) u0 r in
  response res
  = (if first_part rest =? "auth"
     then {| status := StatusOK; sent_headers := [];
             body := [Text (driver_json (AuthDriver X u0))] |}
     else if first_part rest =? "users"
          then {| status := StatusOK; sent_headers := [];
                  body := [Json (EValue (PublicUsersOptions X u0))] |}
          else error_response "" StatusNotFound)
  /\ issued res = []
  /\ fst res <> Panic.
Proof.
  intros Hm Hp. cbv zeta.
  unfold method_in, existsb in Hm. apply guard2 in Hm.
  unfold serve, configHandler, first_part.
  rewrite Hp, split_config_prefix.
  destruct (split_on_cons "/" rest) as (x & l & Hs).
  unfold strings_Split. rewrite Hs.
  destruct (x =? "auth") eqn:Ha; [|destruct (x =? "users") eqn:Hu].
  all: run_served.
  all: repeat split; discriminate.
Qed.

(** X5 on the deployment. *)
Lemma X5_witness :
  response
    (serve (configHandler Demo_Others) Demo.nothing (Demo.get "/config/" ""))
  = error_response "" StatusNotFound.
Proof.
  exact (proj1 (X5_config_parts Demo_Others Demo.nothing
                  (Demo.get "/config/" "") "" eq_refl eq_refl)).
Defined.

(** X6: [/datacenters] sends what [Filters.Datacenters] returns as it is,
    without the replacement of an empty result the other collection
    endpoints make: when the filter returns the nil slice the body is
    [null], with status 200. *)
Theorem X6_datacenters_unguarded X u0 r :
  method_in (Method r) [MethodGet; MethodHead] = true ->
  let visible := Datacenters X (DataDc X u0) (JWT r) in
  let res := serve (datacentersHandler X) u0 r in
  status (response res) = StatusOK
  /\ body (response res)
     = [if strings_Contains (AcceptEncoding r) "gzip"
        then Gzip (EValues visible) else Json (EValues visible)]
  /\ (visible = nil_slice -> null_body (body (response res)) = true)
  /\ (forall s : slice value, is_null (EValues (or_empty s)) = false).
Proof.
  intros Hm. cbv zeta.
  unfold method_in, existsb in Hm. apply guard2 in Hm.
  unfold serve, datacentersHandler.
  destruct (strings_Contains (AcceptEncoding r) "gzip") eqn:Hgz.
  all: run_served.
  all: repeat split.
  all: try (intros ->; reflexivity).
  all: intros s; unfold or_empty; destruct s as [|[|x l]]; reflexivity.
Qed.

(** X6 on the deployment: no datacenter is cached. *)
Lemma X6_witness :
  null_body
    (body
       (response
          (serve (datacentersHandler Demo_Others) Demo.nothing
             (Demo.get "/datacenters" ""))))
  = true.
Proof.
  exact (proj1 (proj2 (proj2 (X6_datacenters_unguarded Demo_Others Demo.nothing
                                (Demo.get "/datacenters" "") eq_refl)))
           eq_refl).
Defined.

(** ** The lookup handlers past the gate *)

Lemma gate_open F r dc s :
  filters.GetRequest F dc (JWT r) = false ->
  gate F r dc s = (Next tt, s).
Proof. intros Hg. unfold gate. rewrite Hg. reflexivity. Qed.

(** A handler that is the resolution, the gate and a tail runs the tail
    once the datacenter is known and allowed. *)
Lemma serve_past_gate F U k u0 r name dc (tail : string -> M unit) :
  serve (lookup_handler k F U) u0 r
  = (dc <- resolve k F U r name ;; gate F r dc ;; tail dc) (init u0) ->
  known_dc k F U u0 r name dc ->
  filters.GetRequest F dc (JWT r) = false ->
  serve (lookup_handler k F U) u0 r = tail dc (past_gate k u0 r name).
Proof.
  intros -> Hk Hg.
  rewrite (bind_Next _ _ _ _ _ (resolve_known F U k u0 r name dc Hk)).
  rewrite (bind_Next _ _ _ _ _ (gate_open F r dc _ Hg)).
  reflexivity.
Qed.


(** Every lookup handler, on a request that passes its checks, is the
    resolution, the gate and its tail. *)
Lemma lookup_handler_tail F U k u0 r name :
  target k r = Some name ->
  serve (lookup_handler k F U) u0 r
  = (dc <- resolve k F U r name ;; gate F r dc ;; tail_of k U r name dc)
      (init u0).
Proof.
  intros H.
  destruct k;
    unfold tail_of, aggregateTail, checkTail, clientTail, eventTail,
      resultsTail, stashTail;
    enter r H; go;
    unfold resolve, gate, init, GetJWTFromContext;
    cbn [find_of find_call visible_of];
    reflexivity.
Qed.

Lemma lookup_past_gate F U k u0 r name dc :
  target k r = Some name ->
  known_dc k F U u0 r name dc ->
  filters.GetRequest F dc (JWT r) = false ->
  serve (lookup_handler k F U) u0 r
  = tail_of k U r name dc (past_gate k u0 r name).
Proof.
  intros H. apply serve_past_gate, lookup_handler_tail, H.
Qed.

(** The tail of a handler run in the state past the gate. *)
Ltac run_tail :=
  unfold past_gate;
  match goal with
  | |- context [?t {| w := newWriter; u := ?u0; calls := ?cs |}] =>
      let E := fresh "E" in
      eassert (E : t {| w := newWriter; u := u0; calls := cs |} = _)
        by (go; reflexivity);
      rewrite !E; clear E
  end.

(** X7: a GET or HEAD on [/checks/:name] that passes the gate reads the
    check of the resolved datacenter once. A failed read is answered
    NotFound with the text of the error, a successful one 200 with the
    check. With a [dc] parameter no find is issued: the cache is not
    scanned for the name. *)
Theorem X7_check_read F U u0 r name dc :
  target LCheck r = Some name ->
  known_dc LCheck F U u0 r name dc ->
  filters.GetRequest F dc (JWT r) = false ->
  let res := serve (checkHandler F U) u0 r in
  issued res = (resolution_calls LCheck r name ++ [CGetCheck dc name])%list
  /\ response res
     = (match snd (GetCheck U u0 dc name) with
        | Some e => error_response e StatusNotFound
        | None => json_response (fst (GetCheck U u0 dc name))
        end)
  /\ fst res = Return.
Proof.
  intros H Hk Hg. cbv zeta.
  change (checkHandler F U) with (lookup_handler LCheck F U).
  rewrite (lookup_past_gate F U LCheck u0 r name dc H Hk Hg).
  unfold tail_of, checkTail.
  destruct (GetCheck U u0 dc name) as [v [err|]] eqn:Hget;
    run_tail; repeat split.
Qed.

(** X7 on the deployment: the check [foo] of [east], asked for with the
    [dc] parameter by an identity limited to [east]. *)
Lemma X7_witness :
  issued
    (serve (checkHandler (Demo.Filters Demo.east) (Demo.Backend ["east"]))
       Demo.both (Demo.get "/checks/foo" "east"))
  = [CGetCheck "east" "foo"].
Proof.
  refine (proj1 (X7_check_read (Demo.Filters Demo.east)
                   (Demo.Backend ["east"]) Demo.both
                   (Demo.get "/checks/foo" "east") "foo" "east"
                   eq_refl (known_direct _ _ _ _ _ _ _) eq_refl)).
  discriminate.
Defined.

(** X8: past the gate [clientHandler] decides by the method first and the
    depth of the path second. A DELETE deletes the client whatever follows
    the name in the path; a read of a path of exactly four parts reads the
    history, whatever the fourth part is; any other read reads the client.
    A failed deletion is answered 500 and a failed read 404, both with the
    text of the error. *)
Theorem X8_client_operations F U u0 r name dc :
  target LClient r = Some name ->
  known_dc LClient F U u0 r name dc ->
  filters.GetRequest F dc (JWT r) = false ->
  let res := serve (clientHandler F U) u0 r in
  let before := resolution_calls LClient r name in
  let parts := length (strings_Split (Path r) "/") in
  (Method r = MethodDelete ->
   issued res = (before ++ [CDeleteClient dc name])%list
   /\ response res
      = match DeleteClient U u0 dc name with
        | Some e => error_response e StatusInternalServerError
        | None => bare_response StatusAccepted
        end)
  /\ (Method r <> MethodDelete -> parts = 4%nat ->
      issued res = (before ++ [CGetClientHistory dc name])%list
      /\ response res
         = match snd (GetClientHistory U u0 dc name) with
           | Some e => error_response e StatusNotFound
           | None => json_response (fst (GetClientHistory U u0 dc name))
           end)
  /\ (Method r <> MethodDelete -> parts <> 4%nat ->
      issued res = (before ++ [CGetClient dc name])%list
      /\ response res
         = match snd (GetClient U u0 dc name) with
           | Some e => error_response e StatusNotFound
           | None => json_response (fst (GetClient U u0 dc name))
           end).
Proof.
  intros H Hk Hg. cbv zeta.
  change (clientHandler F U) with (lookup_handler LClient F U).
  rewrite (lookup_past_gate F U LClient u0 r name dc H Hk Hg).
  unfold tail_of, clientTail.
  split; [|split].
  - intros Hm. apply String.eqb_eq in Hm.
    destruct (DeleteClient U u0 dc name) as [err|] eqn:Hd;
      run_tail; split; reflexivity.
  - intros Hm Hp. apply String.eqb_neq in Hm. apply Nat.eqb_eq in Hp.
    destruct (GetClientHistory U u0 dc name) as [v [err|]] eqn:Hd;
      run_tail; split; reflexivity.
  - intros Hm Hp. apply String.eqb_neq in Hm. apply Nat.eqb_neq in Hp.
    destruct (GetClient U u0 dc name) as [v [err|]] eqn:Hd;
      run_tail; split; reflexivity.
Qed.

(** X8 on the deployment: a fourth part that is not [history]. *)
Lemma X8_witness :
  issued
    (serve (clientHandler (Demo.Filters Demo.east) (Demo.Backend ["east"]))
       Demo.both (Demo.get "/clients/foo/anything" "east"))
  = [CGetClientHistory "east" "foo"].
Proof.
  refine (proj1 (proj1 (proj2 (X8_client_operations (Demo.Filters Demo.east)
                                 (Demo.Backend ["east"]) Demo.both
                                 (Demo.get "/clients/foo/anything" "east")
                                 "foo" "east"
                                 eq_refl (known_direct _ _ _ _ _ _ _) eq_refl))
                   _ eq_refl));
    discriminate.
Defined.

(** The events and the results are looked up as clients. *)
Lemma known_dc_same_find k k' F U u0 r name dc :
  find_of k = find_of k' -> visible_of k = visible_of k' ->
  known_dc k F U u0 r name dc -> known_dc k' F U u0 r name dc.
Proof.
  intros Hf Hv [Hq | objects m rest dc' Hq Hfind Hlen Hel Hdc].
  - apply known_direct, Hq.
  - eapply known_resolved; eauto.
    + rewrite <- Hf. exact Hfind.
    + rewrite <- Hv. exact Hlen.
Qed.

(** X9: a DELETE on [/events/:client/:check] and on
    [/results/:client/:check] that passes the gate issues one command,
    [ResolveEvent] and [DeleteCheckResult], on the check, the client and
    the resolved datacenter, in that order of arguments. Success is
    answered 202 with an empty body, failure 500 with the text of the
    error. *)
Theorem X9_event_and_result_removal F U u0 r a b client check dc :
  Method r = MethodDelete ->
  strings_Split (Path r) "/" = [a; b; client; check] ->
  known_dc LEvent F U u0 r client dc ->
  filters.GetRequest F dc (JWT r) = false ->
  let ev := serve (eventHandler F U) u0 r in
  let rs := serve (resultsHandler F U) u0 r in
  let before := resolution_calls LEvent r client in
  (issued ev = (before ++ [CResolveEvent check client dc])%list
   /\ response ev
      = match ResolveEvent U u0 check client dc with
        | Some e => error_response e StatusInternalServerError
        | None => bare_response StatusAccepted
        end)
  /\ (issued rs = (before ++ [CDeleteCheckResult check client dc])%list
      /\ response rs
         = match DeleteCheckResult U u0 check client dc with
           | Some e => error_response e StatusInternalServerError
           | None => bare_response StatusAccepted
           end).
Proof.
  intros Hm Hp Hk Hg. cbv zeta.
  assert (He : target LEvent r = Some client)
    by (unfold target; rewrite Hm, Hp; reflexivity).
  assert (Hr : target LResult r = Some client)
    by (unfold target; rewrite Hm, Hp; reflexivity).
  assert (Hk' : known_dc LResult F U u0 r client dc)
    by (revert Hk; apply known_dc_same_find; reflexivity).
  change (eventHandler F U) with (lookup_handler LEvent F U).
  change (resultsHandler F U) with (lookup_handler LResult F U).
  rewrite (lookup_past_gate F U LEvent u0 r client dc He Hk Hg).
  rewrite (lookup_past_gate F U LResult u0 r client dc Hr Hk' Hg).
  unfold tail_of, eventTail, resultsTail, past_gate, resolution_calls.
  rewrite Hp. cbn [lookup list_lookup default from_option id find_call].
  split.
  - destruct (ResolveEvent U u0 check client dc) as [e1|] eqn:H1;
      run_tail; split; reflexivity.
  - destruct (DeleteCheckResult U u0 check client dc) as [e2|] eqn:H2;
      run_tail; split; reflexivity.
Qed.

(** X9 on the deployment: the event of check [cpu] on client [foo]. *)
Lemma X9_witness :
  issued
    (serve (eventHandler (Demo.Filters Demo.east) (Demo.Backend ["east"]))
       Demo.both (Demo_delete "/events/foo/cpu" "east"))
  = [CResolveEvent "cpu" "foo" "east"].
Proof.
  refine (proj1 (proj1 (X9_event_and_result_removal (Demo.Filters Demo.east)
                          (Demo.Backend ["east"]) Demo.both
                          (Demo_delete "/events/foo/cpu" "east")
                          "" "events" "foo" "cpu" "east"
                          eq_refl eq_refl (known_direct _ _ _ _ _ _ _)
                          eq_refl)));
    discriminate.
Defined.

(** [strings.Join(strings.Split(s, "/"), "/")] is [s]. *)
Lemma Join_Split (s : string) :
  strings_Join (strings_Split s "/") "/" = s.
Proof.
  unfold strings_Join, strings_Split.
  induction s as [|a s IH]; [reflexivity|].
  cbn [split_on].
  destruct (split_on_cons "/" s) as (x & l & Hs). rewrite Hs in IH |- *.
  destruct (Ascii.eqb a "/") eqn:Ha.
  - apply Ascii.eqb_eq in Ha. subst a.
    change (String "/" (String.concat "/" (x :: l)) = String "/" s).
    rewrite IH. reflexivity.
  - destruct l as [|y l].
    + cbn in IH |- *. rewrite IH. reflexivity.
    + change (String a (String.concat "/" (x :: y :: l)) = String a s).
      rewrite IH. reflexivity.
Qed.

Lemma split_stashes_prefix rest :
  strings_Split ("/stashes/" ++ rest) "/"
  = "" :: "stashes" :: strings_Split rest "/".
Proof.
  unfold strings_Split.
  change ("/stashes/" ++ rest)
    with (String "/" (String "s" (String "t" (String "a" (String "s"
            (String "h" (String "e" (String "s" (String "/" rest))))))))).
  destruct (split_on_cons "/" rest) as (x & l & Hs).
  cbn [split_on Ascii.eqb Bool.eqb]. rewrite Hs. reflexivity.
Qed.

(** The stash a DELETE under [/stashes/] is about is the whole of the path
    after the prefix. *)
Lemma target_stash r p :
  Method r = MethodDelete ->
  Path r = "/stashes/" ++ p ->
  first_part p <> "" ->
  target LStash r = Some p.
Proof.
  intros Hm Hp Hf. unfold target. rewrite Hm, Hp, split_stashes_prefix.
  cbn [method_in existsb String.eqb Ascii.eqb Bool.eqb MethodDelete orb
       lookup list_lookup drop].
  rewrite drop_0, Join_Split.
  unfold first_part in Hf.
  destruct (strings_Split p "/") as [|x l]; [congruence|].
  apply String.eqb_neq in Hf.
  unfold MethodDelete. cbn. rewrite Hf. reflexivity.
Qed.

(** X10: a DELETE on [/stashes/p] takes the whole of [p], slashes
    included, as the path of the stash: splitting on the slash and joining
    again gives [p] back. Past the gate it issues one [DeleteStash] on the
    resolved datacenter and [p]; success is answered 202, and a failure is
    answered 404 with a fixed message about creating the stash, whatever the
    error was. *)
Theorem X10_stash_removal F U u0 r p dc :
  Method r = MethodDelete ->
  Path r = "/stashes/" ++ p ->
  first_part p <> "" ->
  known_dc LStash F U u0 r p dc ->
  filters.GetRequest F dc (JWT r) = false ->
  let res := serve (stashHandler F U) u0 r in
  issued res = (resolution_calls LStash r p ++ [CDeleteStash dc p])%list
  /\ response res
     = (if is_err (DeleteStash U u0 dc p)
        then error_response "Could not create the stash" StatusNotFound
        else bare_response StatusAccepted)
  /\ fst res = Return.
Proof.
  intros Hm Hp Hf Hk Hg. cbv zeta.
  change (stashHandler F U) with (lookup_handler LStash F U).
  rewrite (lookup_past_gate F U LStash u0 r p dc
             (target_stash r p Hm Hp Hf) Hk Hg).
  unfold tail_of, stashTail.
  destruct (DeleteStash U u0 dc p) as [err|] eqn:Hd;
    run_tail; repeat split.
Qed.

(** X10 on the deployment: a stash path of three parts. *)
Lemma X10_witness :
  issued
    (serve (stashHandler Demo.Unrestricted (Demo.Backend ["east"]))
       Demo.nothing (Demo_delete "/stashes/silence/foo/cpu" "east"))
  = [CDeleteStash "east" "silence/foo/cpu"].
Proof.
  refine (proj1 (X10_stash_removal Demo.Unrestricted (Demo.Backend ["east"])
                   Demo.nothing
                   (Demo_delete "/stashes/silence/foo/cpu" "east")
                   "silence/foo/cpu" "east"
                   eq_refl eq_refl _ (known_direct _ _ _ _ _ _ _) eq_refl));
    discriminate.
Defined.

(** X11: on [/aggregates/:name], past the gate, a DELETE issues
    [DeleteAggregate] and a read [GetAggregate]; a failure of either is
    answered 500 with the text of the error. A successful deletion writes
    no status line: it is answered 200 with an empty body, where the other
    deletions answer 202. *)
Theorem X11_aggregate_delete_and_read F U u0 r name dc :
  target LAggregate r = Some name ->
  known_dc LAggregate F U u0 r name dc ->
  filters.GetRequest F dc (JWT r) = false ->
  length (strings_Split (Path r) "/") = 3%nat ->
  let res := serve (aggregateHandler F U) u0 r in
  let before := resolution_calls LAggregate r name in
  (Method r = MethodDelete ->
   issued res = (before ++ [CDeleteAggregate name dc])%list
   /\ response res
      = match DeleteAggregate U u0 name dc with
        | Some e => error_response e StatusInternalServerError
        | None => bare_response StatusOK
        end)
  /\ (Method r <> MethodDelete ->
      issued res = (before ++ [CGetAggregate name dc])%list
      /\ response res
         = match snd (GetAggregate U u0 name dc) with
           | Some e => error_response e StatusInternalServerError
           | None => json_response (fst (GetAggregate U u0 name dc))
           end).
Proof.
  intros H Hk Hg Hl. cbv zeta.
  change (aggregateHandler F U) with (lookup_handler LAggregate F U).
  rewrite (lookup_past_gate F U LAggregate u0 r name dc H Hk Hg).
  unfold tail_of, aggregateTail. rewrite Hl.
  split.
  - intros Hm. apply String.eqb_eq in Hm.
    destruct (DeleteAggregate U u0 name dc) as [err|] eqn:Hd;
      run_tail; split; reflexivity.
  - intros Hm. apply String.eqb_neq in Hm.
    destruct (GetAggregate U u0 name dc) as [v [err|]] eqn:Hd;
      run_tail; split; reflexivity.
Qed.

(** X11 on the deployment: the aggregate [foo] of [east] is deleted. *)
Lemma X11_witness :
  response
    (serve (aggregateHandler (Demo.Filters Demo.east) (Demo.Backend ["east"]))
       Demo.both (Demo_delete "/aggregates/foo" "east"))
  = bare_response StatusOK.
Proof.
  refine (proj2 (proj1 (X11_aggregate_delete_and_read
                          (Demo.Filters Demo.east) (Demo.Backend ["east"])
                          Demo.both (Demo_delete "/aggregates/foo" "east")
                          "foo" "east"
                          eq_refl (known_direct _ _ _ _ _ _ _)
                          eq_refl eq_refl)
                   eq_refl));
    discriminate.
Defined.

(** X12: below [/aggregates/:name], past the gate, the handler decides by
    the number of parts of the path alone, for a DELETE as for a read. With
    four parts the fourth selects the checks or the clients of the
    aggregate, and any other word is answered 404 with the text of a nil
    error and no call; with five parts the fifth is the severity of the
    results read, whatever the fourth part is; a longer path is answered
    400. A failed read is answered 500 with the text of the error. *)
Theorem X12_aggregate_parts F U u0 r name dc :
  target LAggregate r = Some name ->
  known_dc LAggregate F U u0 r name dc ->
  filters.GetRequest F dc (JWT r) = false ->
  let res := serve (aggregateHandler F U) u0 r in
  let before := resolution_calls LAggregate r name in
  let resources := strings_Split (Path r) "/" in
  let read (c : Call) (got : value * option error) :=
    issued res = (before ++ [c])%list
    /\ response res
       = match snd got with
         | Some e => error_response e StatusInternalServerError
         | None => json_response (fst got)
         end in
  (forall kind, length resources = 4%nat -> resources !! 3%nat = Some kind ->
     if kind =? "checks"
     then read (CGetAggregateChecks name dc) (GetAggregateChecks U u0 name dc)
     else if kind =? "clients"
     then read (CGetAggregateClients name dc)
            (GetAggregateClients U u0 name dc)
     else issued res = before
          /\ response res = error_response "<nil>" StatusNotFound)
  /\ (forall severity,
        length resources = 5%nat -> resources !! 4%nat = Some severity ->
        read (CGetAggregateResults name severity dc)
          (GetAggregateResults U u0 name severity dc))
  /\ ((5 < length resources)%nat ->
      issued res = before
      /\ response res = error_response "" StatusBadRequest).
Proof.
  intros H Hk Hg. cbv zeta.
  change (aggregateHandler F U) with (lookup_handler LAggregate F U).
  rewrite (lookup_past_gate F U LAggregate u0 r name dc H Hk Hg).
  unfold tail_of, aggregateTail.
  destruct (strings_Split (Path r) "/")
    as [|a [|b [|c [|d [|e [|f l]]]]]] eqn:E;
    cbn [length lookup list_lookup].
  all: split; [|split].
  all: try (intros ? ?; discriminate).
  all: try (intros ?; lia).
  all: try (intros ? ? ?; discriminate).
  - intros kind _ Hkind. apply Some_eq in Hkind. subst d.
    destruct (kind =? "checks") eqn:Hc;
      [|destruct (kind =? "clients") eqn:Hcl].
    + destruct (GetAggregateChecks U u0 name dc) as [v [err|]] eqn:Hd;
        run_tail; split; reflexivity.
    + destruct (GetAggregateClients U u0 name dc) as [v [err|]] eqn:Hd;
        run_tail; split; reflexivity.
    + run_tail; split; reflexivity.
  - intros severity _ Hs. apply Some_eq in Hs. subst e.
    destruct (GetAggregateResults U u0 name severity dc) as [v [err|]] eqn:Hd;
      run_tail; split; reflexivity.
  - intros _. run_tail; split; reflexivity.
Qed.

(** X12 on the deployment: [summary] is neither [checks] nor [clients]. *)
Lemma X12_witness :
  response
    (serve (aggregateHandler (Demo.Filters Demo.east) (Demo.Backend ["east"]))
       Demo.both (Demo.get "/aggregates/foo/summary" "east"))
  = error_response "<nil>" StatusNotFound.
Proof.
  assert (Hq : QueryDc (Demo.get "/aggregates/foo/summary" "east") <> "")
    by discriminate.
  pose proof (proj1 (X12_aggregate_parts (Demo.Filters Demo.east)
                       (Demo.Backend ["east"]) Demo.both
                       (Demo.get "/aggregates/foo/summary" "east")
                       "foo" "east" eq_refl
                       (known_direct _ _ _ _ _ _ Hq) eq_refl)
                "summary" eq_refl eq_refl) as [_ Hr].
  exact Hr.
Defined.

(** A guard that holds answers and ends the request. *)
Lemma when_reject {B} c msg code (k : unit -> M B) u0 cs :
  c = true ->
  bind (when c (http_Error msg code ;; return_)) k
    {| w := newWriter; u := u0; calls := cs |}
  = (Return, {| w := error_writer msg code; u := u0; calls := cs |}).
Proof. intros ->. reflexivity. Qed.

Lemma when_pass {B} c (m : M unit) (k : unit -> M B) s :
  c = false -> bind (when c m) k s = k tt s.
Proof. intros ->. reflexivity. Qed.

Lemma no_name3_bad (l : list string) s :
  match l !! 2%nat with
  | Some x => if x =? "" then None else Some x
  | None => None
  end = None ->
  no_name l 3 s = (Next true, s).
Proof.
  destruct l as [|a [|b [|c l]]]; try reflexivity.
  cbn [lookup list_lookup]. unfold no_name, orelse, bind, elem_at, ret.
  cbn [lookup list_lookup length Nat.ltb Nat.leb].
  destruct (c =? ""); [reflexivity | discriminate].
Qed.

Lemma no_name2_bad (l : list string) s :
  length l <> 2%nat ->
  match l !! 2%nat with
  | Some x => if x =? "" then None else Some x
  | None => None
  end = None ->
  no_name l 2 s = (Next true, s).
Proof.
  destruct l as [|a [|b [|c l]]]; try reflexivity.
  - intros Hl. exfalso. apply Hl. reflexivity.
  - intros _. cbn [lookup list_lookup].
    unfold no_name, orelse, bind, elem_at, ret.
    cbn [lookup list_lookup length Nat.ltb Nat.leb].
    destruct (c =? ""); [reflexivity | discriminate].
Qed.

Lemma guard_false1 a : negb a = false -> a || false = true.
Proof. destruct a; auto. Qed.

Lemma guard_false2 a b : negb a && negb b = false -> a || (b || false) = true.
Proof. destruct a, b; auto. Qed.

Lemma guard_false3 a b c :
  negb a && negb b && negb c = false -> a || (b || (c || false)) = true.
Proof. destruct a, b, c; auto. Qed.

(** The check of the method, decided. *)
Ltac first_guard H :=
  match goal with
  | |- context [bind (when ?g (http_Error "" StatusBadRequest ;; return_))] =>
      let Hm := fresh "Hm" in
      destruct g eqn:Hm;
      [ rewrite when_reject by reflexivity; repeat split
      | rewrite when_pass by reflexivity; cbv beta zeta;
        first [ apply guard_false3 in Hm | apply guard_false2 in Hm
              | apply guard_false1 in Hm ];
        rewrite Hm in H ]
  end.

(** X13: a request to a lookup handler with a method the handler does not
    serve, with no name in the third part of the path or, for
    [/events/] and [/results/], with a path that has not exactly four
    parts, is answered 400 with an empty message before anything is looked
    up. ([stashHandler] on a path of exactly two parts is the exception.) *)
Theorem X13_lookup_rejected F U k u0 r :
  target k r = None ->
  (k = LStash -> Method r = MethodDelete ->
   length (strings_Split (Path r) "/") <> 2%nat) ->
  let res := serve (lookup_handler k F U) u0 r in
  response res = error_response "" StatusBadRequest
  /\ issued res = []
  /\ fst res = Return.
Proof.
  intros H Hs. cbv zeta.
  destruct k;
    unfold serve, lookup_handler, target, method_in, existsb in *;
    unfold aggregateHandler, checkHandler, clientHandler, eventHandler,
      resultsHandler, stashHandler;
    first_guard H.
  1-3: rewrite (bind_Next _ _ _ _ _ (no_name3_bad _ _ H));
       rewrite when_reject by reflexivity; repeat split.
  1-2: cbn [andb] in H;
       destruct (length (strings_Split (Path r) "/") =? 4)%nat eqn:Hl;
       [ apply Nat.eqb_eq in Hl;
         destruct (strings_Split (Path r) "/") as [|a [|b [|c l]]];
         discriminate
       | rewrite when_reject by reflexivity; repeat split ].
  assert (Hd : Method r = MethodDelete)
    by (apply String.eqb_eq; destruct (Method r =? MethodDelete);
        [reflexivity | discriminate]).
  specialize (Hs eq_refl Hd).
  assert (H3 : match strings_Split (Path r) "/" !! 2%nat with
               | Some x => if x =? "" then None else Some x
               | None => None
               end = None)
    by (destruct (strings_Split (Path r) "/" !! 2%nat) as [x|];
        [destruct (x =? "")|]; (reflexivity || discriminate)).
  rewrite (bind_Next _ _ _ _ _ (no_name2_bad _ _ Hs H3)).
  rewrite when_reject by reflexivity. repeat split.
Qed.

(** X13 on the deployment: no name after [/checks/]. *)
Lemma X13_witness :
  response
    (serve (lookup_handler LCheck (Demo.Filters Demo.east)
              (Demo.Backend ["east"]))
       Demo.both (Demo.get "/checks/" ""))
  = error_response "" StatusBadRequest.
Proof.
  refine (proj1 (X13_lookup_rejected (Demo.Filters Demo.east)
                   (Demo.Backend ["east"]) LCheck Demo.both
                   (Demo.get "/checks/" "") eq_refl _)).
  discriminate.
Defined.

(** X14: [stashHandler] and [subscriptionHandler] guard the read of the
    third part of the path with [len(resources) < 2]: on a path of exactly
    two parts, such as [/stashes], the read is out of range and the handler
    panics, with nothing written and no call issued. *)
Theorem X14_two_part_path_panics F U u0 r :
  length (strings_Split (Path r) "/") = 2%nat ->
  (Method r = MethodDelete ->
   let res := serve (stashHandler F U) u0 r in
   fst res = Panic /\ issued res = [] /\ w (snd res) = newWriter)
  /\ (method_in (Method r) [MethodGet; MethodHead] = true ->
      let res := serve (subscriptionHandler F) u0 r in
      fst res = Panic /\ issued res = [] /\ w (snd res) = newWriter).
Proof.
  intros Hl. cbv zeta. unfold serve, stashHandler, subscriptionHandler.
  destruct (strings_Split (Path r) "/") as [|a [|b [|c l]]];
    try discriminate Hl.
  split.
  - intros Hm. apply String.eqb_eq in Hm.
    match goal with
    | |- fst ?x = _ /\ _ =>
        let E := fresh "E" in
        eassert (E : x = _) by (go; reflexivity); rewrite !E; clear E
    end.
    repeat split.
  - intros Hm. unfold method_in, existsb in Hm. apply guard2 in Hm.
    match goal with
    | |- fst ?x = _ /\ _ =>
        let E := fresh "E" in
        eassert (E : x = _) by (go; reflexivity); rewrite !E; clear E
    end.
    repeat split.
Qed.

(** X14 on the deployment: a DELETE on [/stashes] handed to
    [stashHandler]. *)
Lemma X14_witness :
  fst (serve (stashHandler Demo.Unrestricted (Demo.Backend ["east"]))
         Demo.nothing (Demo_delete "/stashes" "east"))
  = Panic.
Proof.
  exact (proj1 (proj1 (X14_two_part_path_panics Demo.Unrestricted
                         (Demo.Backend ["east"]) Demo.nothing
                         (Demo_delete "/stashes" "east") eq_refl)
                  eq_refl)).
Defined.

Lemma bind_Panic {A B} (m : M A) (k : A -> M B) s s' :
  m s = (Panic, s') -> bind m k s = (Panic, s').
Proof. intros E. unfold bind. rewrite E. reflexivity. Qed.

(** A lookup that succeeds with no match: the first match is read out of
    range. *)
Lemma resolve_empty F U k u0 r name objects :
  QueryDc r = "" ->
  find_of k U u0 name = (objects, None) ->
  (len (visible_of k F objects (JWT r)) <= 1)%nat ->
  elems objects = [] ->
  resolve k F U r name (init u0)
  = (Panic, {| w := newWriter; u := u0; calls := [find_call k name] |}).
Proof.
  intros Hq Hf Hlen He. unfold resolve, init.
  destruct (len (visible_of k F objects (JWT r))) as [|[|n]] eqn:Hn;
    [| | lia];
    repeat first [progress known | rewrite He | whnf_lhs]; reflexivity.
Qed.

(** A first match that is not an object with a string [dc]. *)
Lemma resolve_malformed F U k u0 r name objects first rest :
  QueryDc r = "" ->
  find_of k U u0 name = (objects, None) ->
  (len (visible_of k F objects (JWT r)) <= 1)%nat ->
  elems objects = first :: rest ->
  dc_field first = None ->
  resolve k F U r name (init u0)
  = (Return, {| w := error_writer "<nil>" StatusInternalServerError;
                u := u0; calls := [find_call k name] |}).
Proof.
  intros Hq Hf Hlen He Hd. unfold resolve, init.
  destruct (len (visible_of k F objects (JWT r))) as [|[|n]] eqn:Hn;
    [| | lia]; go.
  all: destruct first as [| | | | |m]; try reflexivity.
  all: unfold dc_field in Hd;
    destruct (m !! "dc") as [[| | |dc| |]|];
    try discriminate Hd; reflexivity.
Qed.

(** X15: a name lookup that reports success but cannot be used. With no
    match at all the handler reads the first match out of range and
    panics, nothing written; with a first match that is not an object
    carrying a string [dc] it answers 500, and the message is the text of
    the nil error of the lookup. The find is the only call. *)
Theorem X15_unusable_match F U k u0 r name objects :
  target k r = Some name ->
  QueryDc r = "" ->
  find_of k U u0 name = (objects, None) ->
  (len (visible_of k F objects (JWT r)) <= 1)%nat ->
  let res := serve (lookup_handler k F U) u0 r in
  (elems objects = [] ->
   fst res = Panic /\ issued res = [find_call k name]
   /\ w (snd res) = newWriter)
  /\ (forall first rest,
        elems objects = first :: rest -> dc_field first = None ->
        fst res = Return /\ issued res = [find_call k name]
        /\ response res = error_response "<nil>" StatusInternalServerError).
Proof.
  intros H Hq Hf Hlen. cbv zeta.
  destruct (lookup_handler_shape F U k r name H) as [tail ->].
  split.
  - intros He.
    rewrite (bind_Panic _ _ _ _
               (resolve_empty F U k u0 r name objects Hq Hf Hlen He)).
    repeat split.
  - intros first rest He Hd.
    rewrite (bind_Return _ _ _ _
               (resolve_malformed F U k u0 r name objects first rest
                  Hq Hf Hlen He Hd)).
    repeat split.
Qed.

(** X15 on the deployment: a lookup that finds a string where an object is
    expected. *)
Lemma X15_witness :
  response
    (serve (lookup_handler LCheck Demo.Unrestricted
              (Demo_finds (mk_slice [VString "foo"])))
       Demo.nothing (Demo.get "/checks/foo" ""))
  = error_response "<nil>" StatusInternalServerError.
Proof.
  refine (proj2 (proj2 (proj2 (X15_unusable_match Demo.Unrestricted
                                 (Demo_finds (mk_slice [VString "foo"]))
                                 LCheck Demo.nothing
                                 (Demo.get "/checks/foo" "") "foo"
                                 (mk_slice [VString "foo"])
                                 eq_refl eq_refl eq_refl _)
                          (VString "foo") [] eq_refl eq_refl))).
  cbn. lia.
Defined.

(** X16: a GET or HEAD on a collection endpoint is answered 200 with one
    JSON text, the result of the filter on the cached collection (an empty
    result as an empty array): nothing of the cache reaches the body but
    through the filter. Six handlers announce JSON and compress the text
    when the request accepts gzip; [subscriptionsHandler] sets no header
    and never compresses. No call is issued. *)
Theorem X16_collection_read k F J U u0 r :
  method_in (Method r) [MethodGet; MethodHead] = true ->
  let res := serve (collection_handler k F J U) u0 r in
  response res
  = collection_response k (strings_Contains (AcceptEncoding r) "gzip")
      (collection_encoded k F (Data u0) (JWT r))
  /\ issued res = []
  /\ fst res <> Panic.
Proof.
  intros Hm. cbv zeta.
  unfold method_in, existsb in Hm.
  pose proof (guard2 _ _ Hm) as Hn. apply orb_false_end in Hm.
  unfold serve, collection_handler, collection_encoded, collection_response.
  destruct (strings_Contains (AcceptEncoding r) "gzip") eqn:Hgz.
  all: destruct k;
    unfold aggregatesHandler, checksHandler, clientsHandler, eventsHandler,
      silencedHandler, stashesHandler, subscriptionsHandler.
  all: run_served; repeat split; discriminate.
Qed.

(** X16 on the deployment: the subscriptions, asked for with gzip
    accepted. *)
Lemma X16_witness :
  response
    (serve (collection_handler KSubscriptions Demo.Unrestricted
              (Demo.Decoded None None None) (Demo.Backend ["east"]))
       Demo.nothing
       {| Method := MethodGet; Path := "/subscriptions"; QueryDc := "";
          AcceptEncoding := "gzip"; JWT := None; Body := "" |})
  = {| status := StatusOK; sent_headers := [];
       body := [Json (ESubscriptions (mk_slice []))] |}.
Proof.
  exact (proj1 (X16_collection_read KSubscriptions Demo.Unrestricted
                  (Demo.Decoded None None None) (Demo.Backend ["east"])
                  Demo.nothing
                  {| Method := MethodGet; Path := "/subscriptions";
                     QueryDc := ""; AcceptEncoding := "gzip"; JWT := None;
                     Body := "" |}
                  eq_refl)).
Defined.

(** X17: a POST on [/stashes] that decodes and passes the gate hands the
    stash to [PostStash] once, with the username claim of the token, when
    there is one, written over the [username] entry of its content. When
    the token has a username claim and the decoded stash has no content the
    assignment is to a nil map: the handler panics before any call. A
    created stash is answered 200 with an empty body, a failure 404 with a
    fixed message. *)
Theorem X17_stash_creation F U J u0 r data :
  Method r = MethodPost ->
  decode_stash J (Body r) = Some data ->
  filters.GetRequest F (StashDc data) (JWT r) = false ->
  let res := serve (stashesHandler F U J) u0 r in
  let posted d :=
    issued res = [CPostStash d]
    /\ response res
       = (if is_err (PostStash U u0 d)
          then error_response "Could not create the stash" StatusNotFound
          else bare_response StatusOK) in
  match JWT r with
  | Some t =>
      if is_nil (claim t "username") then posted data
      else match Content data with
           | Some m => posted (set_username data m (claim t "username"))
           | None =>
               fst res = Panic /\ issued res = [] /\ w (snd res) = newWriter
           end
  | None => posted data
  end.
Proof.
  intros Hm Hd Hg. cbv zeta.
  unfold serve, stashesHandler, GetJWTFromContext in *. rewrite Hm, Hd.
  unfold MethodPost, MethodGet, MethodHead, stamp_Content, set_username.
  destruct (JWT r) as [t|] eqn:Ht;
    [destruct (is_nil (claim t "username")) eqn:Hn;
     [|destruct (Content data) as [m|] eqn:Hc]|].
  all: try (destruct (PostStash U u0 _) as [err|] eqn:Hp).
  all: match goal with
       | |- context [issued ?x] =>
           let E := fresh "E" in
           eassert (E : x = _) by (go; reflexivity); rewrite !E; clear E
       end.
  all: repeat split.
Qed.

(** X17 on the deployment: a stash without content posted by [alice]. *)
Lemma X17_witness :
  fst (serve (stashesHandler Demo.Unrestricted (Demo.Backend ["east"])
                (Demo.Decoded None None
                   (Some {| StashDc := "east"; StashPath := "silence/foo";
                            Content := None; StashExpire := 0%Z |})))
         Demo.nothing (Demo.post "/stashes" (Some Demo.alice)))
  = Panic.
Proof.
  exact (proj1 (X17_stash_creation Demo.Unrestricted (Demo.Backend ["east"])
                  (Demo.Decoded None None
                     (Some {| StashDc := "east"; StashPath := "silence/foo";
                              Content := None; StashExpire := 0%Z |}))
                  Demo.nothing (Demo.post "/stashes" (Some Demo.alice))
                  {| StashDc := "east"; StashPath := "silence/foo";
                     Content := None; StashExpire := 0%Z |}
                  eq_refl eq_refl eq_refl)).
Defined.

(** X18: a POST on [/silenced] that decodes and passes the gate. A
    username claim that is not a string makes the type assertion panic,
    with no call and nothing written. On [/silenced/clear] the entry is
    handed to [ClearSilenced] without the validation of the policy: the
    expiration and the reason are not looked at. An entry the policy
    accepts is handed to [PostSilence]; both commands answer 200 with an
    empty body on success and 404 with a fixed message on failure. *)
Theorem X18_silence_clear_and_claim F U J u0 r data :
  Method r = MethodPost ->
  decode_silence J (Body r) = Some data ->
  filters.GetRequest F (Dc data) (JWT r) = false ->
  let res := serve (silencedHandler F U J) u0 r in
  let d := stamped (JWT r) data in
  (username_typed (JWT r) = false ->
   fst res = Panic /\ issued res = [] /\ w (snd res) = newWriter)
  /\ (username_typed (JWT r) = true -> clear_path r = true ->
      issued res = [CClearSilenced d]
      /\ response res
         = (if is_err (ClearSilenced U u0 d)
            then error_response
                   "Could not clear from entry in the silenced registry"
                   StatusNotFound
            else bare_response StatusOK))
  /\ (username_typed (JWT r) = true -> clear_path r = false ->
      open_ended (Config u0) data = false ->
      no_reason (Config u0) data = false ->
      issued res = [CPostSilence d]
      /\ response res
         = (if is_err (PostSilence U u0 d)
            then error_response
                   "Could not create the entry in the silenced registry"
                   StatusNotFound
            else bare_response StatusOK)).
Proof.
  intros Hm Hd Hg. cbv zeta. split; [|split].
  - intros Ht.
    unfold serve, silencedHandler, GetJWTFromContext. rewrite Hm, Hd.
    unfold MethodPost, MethodGet, MethodHead.
    match goal with
    | |- fst ?x = _ /\ _ =>
        assert (E : x = (Panic, init u0))
          by (go; rewrite (stamp_Creator_panic _ _ _ Ht); go; reflexivity);
        rewrite E
    end.
    repeat split.
  - intros Ht Hc.
    rewrite (silenced_post_run F U J u0 r data Hm Hd Hg Ht).
    unfold silenced_post_result. rewrite Hc.
    destruct (ClearSilenced U u0 (stamped (JWT r) data)); split; reflexivity.
  - intros Ht Hc Ho Hr.
    rewrite (silenced_post_run F U J u0 r data Hm Hd Hg Ht).
    unfold silenced_post_result. rewrite Hc, Ho, Hr.
    destruct (PostSilence U u0 (stamped (JWT r) data)); split; reflexivity.
Qed.

(** X18 on the deployment: an open-ended entry without a reason is cleared
    under the strict policy. *)
Lemma X18_witness :
  issued
    (serve (silencedHandler Demo.Unrestricted (Demo.Backend ["east"])
              (Demo.Decoded None (Some (Demo.entry "" "bob")) None))
       Demo.nothing_strict (Demo.post "/silenced/clear" (Some Demo.alice)))
  = [CClearSilenced (Demo.entry "" "alice")].
Proof.
  exact (proj1 (proj1 (proj2 (X18_silence_clear_and_claim Demo.Unrestricted
                                (Demo.Backend ["east"])
                                (Demo.Decoded None
                                   (Some (Demo.entry "" "bob")) None)
                                Demo.nothing_strict
                                (Demo.post "/silenced/clear"
                                   (Some Demo.alice))
                                (Demo.entry "" "bob")
                                eq_refl eq_refl eq_refl))
                  eq_refl eq_refl)).
Defined.

(** X19: a POST on [/clients]. A body that does not decode is answered
    500 with a fixed message and no call. An accepted client is handed to
    [UpdateClient]: success is answered 201 with an empty body, failure 400
    with the text of the error. *)
Theorem X19_client_update_answers F U J u0 r :
  Method r = MethodPost ->
  let res := serve (clientsHandler F U J) u0 r in
  match decode_value J (Body r) with
  | None =>
      response res
      = error_response "Could not decode body" StatusInternalServerError
      /\ issued res = []
  | Some payload =>
      filters.Client F payload (JWT r) = true ->
      response res
      = match UpdateClient U u0 payload with
        | Some e => error_response e StatusBadRequest
        | None => bare_response StatusCreated
        end
  end.
Proof.
  intros Hm. cbv zeta.
  unfold serve, clientsHandler, GetJWTFromContext. rewrite Hm.
  unfold MethodPost, MethodGet, MethodHead.
  destruct (decode_value J (Body r)) as [payload|] eqn:Hd.
  - intros Hc. destruct (UpdateClient U u0 payload) as [err|] eqn:Hu;
      run_served; reflexivity.
  - run_served. split; reflexivity.
Qed.

(** X19 on the deployment: a client of [east] is created. *)
Lemma X19_witness :
  response
    (serve (clientsHandler Demo.Unrestricted (Demo.Backend ["east"])
              (Demo.Decoded (Some (Demo.object "foo" "east")) None None))
       Demo.nothing (Demo.post "/clients" None))
  = bare_response StatusCreated.
Proof.
  exact (X19_client_update_answers Demo.Unrestricted (Demo.Backend ["east"])
           (Demo.Decoded (Some (Demo.object "foo" "east")) None None)
           Demo.nothing (Demo.post "/clients" None) eq_refl eq_refl).
Defined.

(** X20: a collection endpoint asked with a method other than GET and HEAD
    answers 400 with an empty message, unless the method is POST and the
    handler has a POST branch; there, a body that does not decode is
    answered 500 with a fixed message. Neither issues a call. *)
Theorem X20_collection_rejections k F J U u0 r :
  method_in (Method r) [MethodGet; MethodHead] = false ->
  let res := serve (collection_handler k F J U) u0 r in
  ((Method r =? MethodPost) && accepts_post k = false ->
   response res = error_response "" StatusBadRequest
   /\ issued res = [] /\ fst res = Return)
  /\ ((Method r =? MethodPost) && accepts_post k = true ->
      decodes k J (Body r) = false ->
      response res
      = error_response "Could not decode body" StatusInternalServerError
      /\ issued res = [] /\ fst res = Return).
Proof.
  intros Hm. cbv zeta.
  unfold method_in, existsb in Hm.
  destruct (Method r =? MethodGet) eqn:HG; [discriminate|].
  destruct (Method r =? MethodHead) eqn:HH; [discriminate|]. clear Hm.
  unfold serve, collection_handler, decodes, accepts_post.
  destruct (Method r =? MethodPost) eqn:Hp; cbn [andb]; split;
    try discriminate.
  all: destruct k; try discriminate; intros _.
  all: unfold aggregatesHandler, checksHandler, clientsHandler, eventsHandler,
      silencedHandler, stashesHandler, subscriptionsHandler.
  all: try (intros Hd; apply bool_decide_eq_false in Hd;
            rewrite <- eq_None_not_Some in Hd).
  all: run_served; repeat split.
Qed.

(** X20 on the deployment: a POST on [/checks]. *)
Lemma X20_witness :
  response
    (serve (collection_handler KChecks Demo.Unrestricted
              (Demo.Decoded None None None) (Demo.Backend ["east"]))
       Demo.nothing (Demo.post "/checks" None))
  = error_response "" StatusBadRequest.
Proof.
  exact (proj1 (proj1 (X20_collection_rejections KChecks Demo.Unrestricted
                         (Demo.Decoded None None None) (Demo.Backend ["east"])
                         Demo.nothing (Demo.post "/checks" None) eq_refl)
                  eq_refl)).
Defined.

(** ** The handlers and the log of calls *)

Lemma blind_ret {A} (a : A) : log_blind (ret a).
Proof. intros wr ur cs. cbn. rewrite app_nil_r. reflexivity. Qed.

Lemma blind_return {A} : log_blind (@return_ A).
Proof. intros wr ur cs. cbn. rewrite app_nil_r. reflexivity. Qed.

Lemma blind_panic {A} : log_blind (@panic A).
Proof. intros wr ur cs. cbn. rewrite app_nil_r. reflexivity. Qed.

Lemma blind_bind {A B} (m : M A) (k : A -> M B) :
  log_blind m -> (forall a, log_blind (k a)) -> log_blind (bind m k).
Proof.
  intros Hm Hk wr ur cs. unfold bind. rewrite (Hm wr ur cs). cbv zeta.
  destruct (m {| w := wr; u := ur; calls := [] |}) as [[a| |] [w1 u1 c1]];
    cbn [fst snd w u calls]; try reflexivity.
  rewrite (Hk a w1 u1 (cs ++ c1)%list), (Hk a w1 u1 c1). cbv zeta.
  cbn [fst snd w u calls]. rewrite app_assoc. reflexivity.
Qed.

Lemma blind_when c (body : M unit) : log_blind body -> log_blind (when c body).
Proof. intros H. destruct c; [exact H | apply blind_ret]. Qed.

Lemma blind_modify_w f : log_blind (modify_w f).
Proof. intros wr ur cs. cbn. rewrite app_nil_r. reflexivity. Qed.

Lemma blind_invoke {A} c (f : Uchiwa -> A) : log_blind (invoke c f).
Proof. intros wr ur cs. reflexivity. Qed.

Lemma blind_elem_at {A} (l : list A) i : log_blind (elem_at l i).
Proof.
  unfold elem_at. destruct (l !! i); [apply blind_ret | apply blind_panic].
Qed.

Ltac blind_step :=
  match goal with
  | |- log_blind (let _ := _ in _) => cbv zeta
  | |- log_blind (bind _ _) => apply blind_bind; [|intros ?]
  | |- log_blind (when _ _) => apply blind_when
  | |- log_blind (if ?b then _ else _) => destruct b
  | |- log_blind (match ?x with _ => _ end) => destruct x
  | |- log_blind (ret _) => apply blind_ret
  | |- log_blind return_ => apply blind_return
  | |- log_blind panic => apply blind_panic
  | |- log_blind (modify_w _) => apply blind_modify_w
  | |- log_blind (invoke _ _) => apply blind_invoke
  | |- log_blind (elem_at _ _) => apply blind_elem_at
  | |- log_blind (?h _) => unfold h
  | |- log_blind (?h _ _) => unfold h
  | |- log_blind (?h _ _ _) => unfold h
  | |- log_blind (?h _ _ _ _) => unfold h
  | |- log_blind (?h _ _ _ _ _) => unfold h
  | |- log_blind ?h => unfold h
  end.

Lemma blind_tail_of k U r name dc : log_blind (tail_of k U r name dc).
Proof. destruct k; cbn [tail_of]; repeat blind_step. Qed.

(** X21: the name lookup is transparent. When the datacenter of a request
    is known, the same request sent with that datacenter in the [dc]
    parameter gets the same answer, whether the gate denies it or lets it
    pass; the calls are the same but for the find of the resolution, which
    comes first. *)
Theorem X21_dc_parameter_is_transparent F U k u0 r name dc :
  target k r = Some name ->
  known_dc k F U u0 r name dc ->
  dc <> "" ->
  let res := serve (lookup_handler k F U) u0 r in
  let res' := serve (lookup_handler k F U) u0 (with_dc r dc) in
  response res = response res'
  /\ fst res = fst res'
  /\ issued res = (resolution_calls k r name ++ issued res')%list.
Proof.
  intros H Hk Hdc. cbv zeta.
  assert (H' : target k (with_dc r dc) = Some name) by exact H.
  assert (Hk' : known_dc k F U u0 (with_dc r dc) name dc)
    by (apply (known_direct k F U u0 (with_dc r dc) name); exact Hdc).
  apply String.eqb_neq in Hdc.
  destruct (filters.GetRequest F dc (JWT r)) eqn:Hg.
  - rewrite (serve_lookup_denied F U k u0 r name dc H Hk Hg).
    rewrite (serve_lookup_denied F U k u0 (with_dc r dc) name dc H' Hk' Hg).
    change (QueryDc (with_dc r dc)) with dc. rewrite Hdc.
    unfold issued, resolution_calls. cbn [snd calls fst].
    rewrite app_nil_r. repeat split.
  - rewrite (lookup_past_gate F U k u0 r name dc H Hk Hg).
    rewrite (lookup_past_gate F U k u0 (with_dc r dc) name dc H' Hk' Hg).
    change (tail_of k U (with_dc r dc) name dc) with (tail_of k U r name dc).
    unfold past_gate.
    change (resolution_calls k (with_dc r dc) name)
      with (if dc =? "" then [find_call k name] else []).
    rewrite Hdc.
    rewrite (blind_tail_of k U r name dc newWriter u0
               (resolution_calls k r name)).
    cbv zeta. repeat split.
Qed.

(** X21 on the deployment: the check [foo], which the lookup finds in
    [west]. *)
Lemma X21_witness :
  response
    (serve (lookup_handler LCheck (Demo.Filters Demo.east)
              (Demo.Backend ["east"; "west"]))
       Demo.west_only (Demo.get "/checks/foo" ""))
  = response
      (serve (lookup_handler LCheck (Demo.Filters Demo.east)
                (Demo.Backend ["east"; "west"]))
         Demo.west_only (with_dc (Demo.get "/checks/foo" "") "west")).
Proof.
  refine (proj1 (X21_dc_parameter_is_transparent (Demo.Filters Demo.east)
                   (Demo.Backend ["east"; "west"]) LCheck Demo.west_only
                   (Demo.get "/checks/foo" "") "foo" "west"
                   eq_refl Demo_known_west _)).
  discriminate.
Defined.

